(** * reward-book: the offer accrual and status engine, and its persistence

    A shallow embedding of [src/lib/offers.ts] (offer math and status
    normalization), of the schema upgrades of [src/lib/db.ts] and of
    [archiveOffer] (lifecycle actions).

    A JavaScript [number] is an IEEE 754 binary64 value: it is modelled by
    Rocq's primitive [float], whose operations are the same binary64
    operations (round to nearest, ties to even), with a single [nan]. *)

From Stdlib Require Import ZArith Floats.
From stdpp Require Import gmap strings.

Set Warnings "-inexact-float".

(** ** JavaScript numbers *)

Module JS.

Abbreviation number := PrimFloat.float.

(** The relational operators of the language, on numbers.  Every
    comparison with [nan] is [false]. *)
Definition le (x y : number) : bool := PrimFloat.leb x y.
Definition lt (x y : number) : bool := PrimFloat.ltb x y.
Definition ge (x y : number) : bool := PrimFloat.leb y x.
Definition gt (x y : number) : bool := PrimFloat.ltb y x.

(** [Math.min(x, y)]: [NaN] if either argument is [NaN]; [-0] is
    smaller than [+0]. *)
Definition Math_min (x y : number) : number :=
  if is_nan x || is_nan y then nan
  else if PrimFloat.ltb x y then x
  else if PrimFloat.ltb y x then y
  else if get_sign x then x else y.

(** [Math.max(x, y)]: [NaN] if either argument is [NaN]; [+0] is
    larger than [-0]. *)
Definition Math_max (x y : number) : number :=
  if is_nan x || is_nan y then nan
  else if PrimFloat.ltb x y then y
  else if PrimFloat.ltb y x then x
  else if get_sign x then y else x.

(** [a ?? b] on an optional property: [b] when [a] is [undefined]. *)
Definition nullish {A : Type} (a : option A) (b : A) : A :=
  match a with Some v => v | None => b end.

End JS.

Infix "??" := JS.nullish (at level 45, left associativity).

(** ** The data model ([types.ts]) *)

Inductive OfferCategory : Type :=
  Dining | Travel | Grocery | Gas | Online | OtherCategory.

Inductive OfferStatus : Type := active | expired | maxed | archived.

Inductive OfferRewardType : Type := percentage | threshold.

#[global] Instance OfferStatus_eq_dec : EqDecision OfferStatus.
Proof. solve_decision. Defined.

#[global] Instance OfferRewardType_eq_dec : EqDecision OfferRewardType.
Proof. solve_decision. Defined.

(** An optional property ([name?: T]) is an [option]: [None] is
    [undefined]. *)
Record Offer : Type := mkOffer {
  id : string;
  merchant : string;
  cardId : string;
  rewardType : option OfferRewardType;
  rate : JS.number;
  cashbackCap : JS.number;
  spendThreshold : option JS.number;
  rewardAmount : option JS.number;
  cashbackEarned : JS.number;
  totalSpendTracked : JS.number;
  expireAt : JS.number;
  category : OfferCategory;
  note : option string;
  status : OfferStatus;
  archivedAt : option JS.number;
  creditedToLifetime : option bool;
  createdAt : JS.number;
  updatedAt : JS.number
}.

Record OfferStats : Type := mkOfferStats {
  earned : JS.number;
  remainCashback : JS.number;
  remainSpendToCap : JS.number;
  percent : JS.number
}.

Record AppStats : Type := mkAppStats {
  stats_id : string;
  lifetimeCashbackEarned : JS.number;
  lastUpdatedAt : JS.number
}.

(** Object spread with one property replaced: [{ ...offer, p: v }]. *)
Definition with_cashbackEarned (v : JS.number) (o : Offer) : Offer :=
  mkOffer (id o) (merchant o) (cardId o) (rewardType o) (rate o)
    (cashbackCap o) (spendThreshold o) (rewardAmount o) v
    (totalSpendTracked o) (expireAt o) (category o) (note o) (status o)
    (archivedAt o) (creditedToLifetime o) (createdAt o) (updatedAt o).

Definition with_status (v : OfferStatus) (o : Offer) : Offer :=
  mkOffer (id o) (merchant o) (cardId o) (rewardType o) (rate o)
    (cashbackCap o) (spendThreshold o) (rewardAmount o) (cashbackEarned o)
    (totalSpendTracked o) (expireAt o) (category o) (note o) v
    (archivedAt o) (creditedToLifetime o) (createdAt o) (updatedAt o).

Definition with_archivedAt (v : option JS.number) (o : Offer) : Offer :=
  mkOffer (id o) (merchant o) (cardId o) (rewardType o) (rate o)
    (cashbackCap o) (spendThreshold o) (rewardAmount o) (cashbackEarned o)
    (totalSpendTracked o) (expireAt o) (category o) (note o) (status o)
    v (creditedToLifetime o) (createdAt o) (updatedAt o).

Definition with_updatedAt (v : JS.number) (o : Offer) : Offer :=
  mkOffer (id o) (merchant o) (cardId o) (rewardType o) (rate o)
    (cashbackCap o) (spendThreshold o) (rewardAmount o) (cashbackEarned o)
    (totalSpendTracked o) (expireAt o) (category o) (note o) (status o)
    (archivedAt o) (creditedToLifetime o) (createdAt o) v.

Definition with_creditedToLifetime (v : option bool) (o : Offer) : Offer :=
  mkOffer (id o) (merchant o) (cardId o) (rewardType o) (rate o)
    (cashbackCap o) (spendThreshold o) (rewardAmount o) (cashbackEarned o)
    (totalSpendTracked o) (expireAt o) (category o) (note o) (status o)
    (archivedAt o) v (createdAt o) (updatedAt o).

(** ** Offer math ([offers.ts]) *)

Definition EPSILON : JS.number := 0.01%float.

(** [offer.rewardType === "threshold"] *)
Definition is_threshold (o : Offer) : bool :=
  bool_decide (rewardType o = Some threshold).

Definition recalcOfferProgress (offer : Offer) : Offer :=
  if is_threshold offer then
    let threshold := spendThreshold offer ?? 0%float in
    let reward := rewardAmount offer ?? cashbackCap offer in
    if JS.le threshold 0 then with_cashbackEarned 0%float offer
    else
      let earned :=
        if JS.ge (totalSpendTracked offer) threshold then reward else 0%float in
      with_cashbackEarned (JS.Math_min earned reward) offer
  else if JS.le (rate offer) 0 then offer
  else
    let spendCap := (cashbackCap offer / rate offer)%float in
    let effectiveSpend := JS.Math_min (totalSpendTracked offer) spendCap in
    let cashbackEarned' :=
      JS.Math_min (effectiveSpend * rate offer)%float (cashbackCap offer) in
    with_cashbackEarned cashbackEarned' offer.

Definition computeOfferStats (offer : Offer) : OfferStats :=
  if is_threshold offer then
    let threshold := spendThreshold offer ?? 0%float in
    let reward := rewardAmount offer ?? cashbackCap offer in
    if JS.le threshold 0 then
      {| earned := cashbackEarned offer;
         remainCashback := JS.Math_max 0 (reward - cashbackEarned offer)%float;
         remainSpendToCap := 0%float;
         percent := 0%float |}
    else
      let earned' :=
        if JS.ge (totalSpendTracked offer) threshold then reward else 0%float in
      let remainSpend :=
        JS.Math_max 0 (threshold - totalSpendTracked offer)%float in
      let remainCashback' := JS.Math_max 0 (reward - earned')%float in
      let percent' :=
        JS.Math_min (totalSpendTracked offer / threshold)%float 1 in
      {| earned := earned';
         remainCashback := remainCashback';
         remainSpendToCap := remainSpend;
         percent := percent' |}
  else if JS.le (rate offer) 0 then
    {| earned := cashbackEarned offer;
       remainCashback := 0%float;
       remainSpendToCap := 0%float;
       percent := 0%float |}
  else
    let spendCap := (cashbackCap offer / rate offer)%float in
    let effectiveSpend := JS.Math_min (totalSpendTracked offer) spendCap in
    let earned' :=
      JS.Math_min (effectiveSpend * rate offer)%float (cashbackCap offer) in
    let remainCashback' := JS.Math_max 0 (cashbackCap offer - earned')%float in
    let remainSpendToCap' :=
      if JS.gt remainCashback' 0 then (remainCashback' / rate offer)%float
      else 0%float in
    let percent' :=
      if JS.gt (cashbackCap offer) 0
      then JS.Math_min (earned' / cashbackCap offer)%float 1
      else 0%float in
    {| earned := earned';
       remainCashback := remainCashback';
       remainSpendToCap := remainSpendToCap';
       percent := percent' |}.

Definition isMaxedOut (offer : Offer) : bool :=
  if bool_decide (status offer = archived) then false
  else if is_threshold offer then
    let threshold := spendThreshold offer ?? 0%float in
    if JS.le threshold 0 then false
    else JS.ge (totalSpendTracked offer) (threshold - EPSILON)%float
  else if JS.le (cashbackCap offer) 0 || JS.le (rate offer) 0 then false
  else JS.ge (cashbackEarned offer) (cashbackCap offer - EPSILON)%float.

(** [computeStatus]: [now] is the value [Date.now()] returns when the
    function reads the clock. *)
Definition computeStatus (now : JS.number) (offer : Offer) : OfferStatus :=
  if bool_decide (status offer = archived) then archived
  else if JS.gt now (expireAt offer) then expired
  else if isMaxedOut offer then maxed
  else active.

Definition normalizeOffer (now : JS.number) (offer : Offer) : Offer :=
  let status' := computeStatus now offer in
  if bool_decide (status' ≠ status offer) && bool_decide (status offer ≠ archived)
  then with_status status' offer
  else offer.

(** ** Rounding to cents: [Number(x.toFixed(2))]

    [x.toFixed(2)] writes the decimal [n / 100] for the integer [n] that
    makes [n / 100 - |x|] closest to zero, the larger [n] on a tie, with
    the sign of [x] in front; [Number] reads it back as the nearest
    binary64 value.  [NaN], the infinities and magnitudes of [1e21] and
    more are printed by [ToString] and read back unchanged. *)

Definition cents_of (m : positive) (e : Z) : Z :=
  if (0 <=? e)%Z then (Z.pos m * 2 ^ e * 100)%Z
  else ((2 * (Z.pos m * 100) + 2 ^ (- e)) / 2 ^ (1 - e))%Z.

Definition number_of_cents (n : Z) : JS.number :=
  match n with
  | Z.pos p =>
      SF2Prim (SFdiv prec emax (S754_finite false p 0) (S754_finite false 100 0))
  | _ => 0%float
  end.

Definition Number_toFixed2 (x : JS.number) : JS.number :=
  match Prim2SF x with
  | S754_nan | S754_infinity _ => x
  | S754_zero _ => 0%float
  | S754_finite s m e =>
      if PrimFloat.leb 1e21%float (abs x) then x
      else
        let r := number_of_cents (cents_of m e) in
        if s then (- r)%float else r
  end.

(** ** The store ([db.ts])

    Four tables keyed by their [id] property.  [Date.now()] is the next
    reading of a clock; [indexedDB] may be missing from the environment,
    in which case [getDb] throws. *)

Record Card : Type := mkCard {
  card_id : string;
  issuer : string;
  name : string;
  card_createdAt : JS.number;
  card_updatedAt : JS.number
}.

Record SpendLog : Type := mkSpendLog {
  log_id : string;
  offerId : string;
  amount : JS.number;
  log_note : option string;
  log_createdAt : JS.number
}.

Record Tables : Type := mkTables {
  cards : gmap string Card;
  offers : gmap string Offer;
  spendLogs : gmap string SpendLog;
  stats : gmap string AppStats
}.

Record World : Type := mkWorld {
  indexedDB_defined : bool;
  tables : Tables;
  clock : nat -> JS.number;
  ticks : nat
}.

Inductive Outcome (A : Type) : Type :=
  | Returned (a : A)
  | Thrown (message : string).
Arguments Returned {A} a.
Arguments Thrown {A} message.

(** A computation that reads and writes the world and returns or throws. *)
Definition IO (A : Type) : Type := World -> Outcome A * World.

#[global] Instance IO_ret : MRet IO := fun A a w => (Returned a, w).

Definition throw {A} (message : string) : IO A := fun w => (Thrown message, w).

#[global] Instance IO_bind : MBind IO := fun A B k c w =>
  match c w with
  | (Returned a, w') => k a w'
  | (Thrown message, w') => (Thrown message, w')
  end.

Definition Date_now : IO JS.number :=
  fun w =>
    (Returned (clock w (ticks w)),
     mkWorld (indexedDB_defined w) (tables w) (clock w) (S (ticks w))).

Definition set_tables (t : Tables) (w : World) : World :=
  mkWorld (indexedDB_defined w) t (clock w) (ticks w).

Definition offers_get (key : string) : IO (option Offer) :=
  fun w => (Returned (offers (tables w) !! key), w).

Definition offers_put (o : Offer) : IO unit :=
  fun w =>
    let t := tables w in
    (Returned tt,
     set_tables (mkTables (cards t) (<[id o := o]> (offers t)) (spendLogs t) (stats t)) w).

Definition stats_get (key : string) : IO (option AppStats) :=
  fun w => (Returned (stats (tables w) !! key), w).

Definition stats_put (s : AppStats) : IO unit :=
  fun w =>
    let t := tables w in
    (Returned tt,
     set_tables (mkTables (cards t) (offers t) (spendLogs t) (<[stats_id s := s]> (stats t))) w).

(** [db.transaction("rw", ..., body)]: the writes of a body that throws
    are rolled back. *)
Definition transaction {A} (body : IO A) : IO A :=
  fun w =>
    match body w with
    | (Returned a, w') => (Returned a, w')
    | (Thrown message, w') => (Thrown message, set_tables (tables w) w')
    end.

Definition getDb : IO unit :=
  fun w =>
    if indexedDB_defined w then (Returned tt, w)
    else throw "IndexedDB is not available in this environment." w.

Definition STATS_KEY : string := "app".

Definition getOrCreateStats : IO AppStats :=
  existing ← stats_get STATS_KEY ;
  match existing with
  | Some existing => mret existing
  | None =>
      now ← Date_now ;
      let stats := mkAppStats STATS_KEY 0%float now in
      stats_put stats ;;
      mret stats
  end.

(** [!finalized.creditedToLifetime] *)
Definition not_credited (o : Offer) : bool :=
  match creditedToLifetime o with Some true => false | _ => true end.

(** [computeStatus] as a caller runs it: the clock is read only past the
    test for [archived]. *)
Definition computeStatus_io (offer : Offer) : IO OfferStatus :=
  if bool_decide (status offer = archived) then mret archived
  else now ← Date_now ; mret (computeStatus now offer).

Definition archiveOffer (offerId : string) : IO unit :=
  getDb ;;
  transaction (
    offer ← offers_get offerId ;
    match offer with
    | None => mret tt
    | Some offer =>
        let finalized := recalcOfferProgress offer in
        archivedAt' ←
          match archivedAt finalized with
          | Some t => mret t
          | None => Date_now
          end ;
        updatedAt' ← Date_now ;
        let finalized :=
          with_updatedAt updatedAt'
            (with_archivedAt (Some archivedAt')
               (with_status archived finalized)) in
        finalized ←
          (if not_credited finalized then
             stats ← getOrCreateStats ;
             let lifetime :=
               Number_toFixed2
                 (lifetimeCashbackEarned stats + cashbackEarned finalized)%float in
             now ← Date_now ;
             let stats := mkAppStats (stats_id stats) lifetime now in
             let finalized := with_creditedToLifetime (Some true) finalized in
             stats_put stats ;;
             mret finalized
           else mret finalized) ;
        status' ← computeStatus_io finalized ;
        let finalized := with_status status' finalized in
        offers_put finalized
    end).

(** ** Schema upgrades ([db.ts], versions 2 and 3)

    An upgrade runs over records written by earlier versions, in which a
    property may be missing, or present and [undefined] or [null]. *)

Inductive Property (A : Type) : Type :=
  | Absent
  | Undefined
  | Null
  | Value (a : A).
Arguments Absent {A}.
Arguments Undefined {A}.
Arguments Null {A}.
Arguments Value {A} a.

(** ["p" in record] *)
Definition has_key {A} (p : Property A) : bool :=
  match p with Absent => false | _ => true end.

(** [record.p == null]: a missing property reads as [undefined]. *)
Definition is_nullish {A} (p : Property A) : bool :=
  match p with Value _ => false | _ => true end.

(** [!record.p] for a property that holds one of the non-empty strings of
    a union type ([OfferStatus], [OfferRewardType]). *)
Definition is_falsy {A} (p : Property A) : bool :=
  match p with Value _ => false | _ => true end.

(** [record.p ?? d] *)
Definition nullish_or {A} (p : Property A) (d : A) : A :=
  match p with Value a => a | _ => d end.

(** [ToNumber] of a numeric property, as [>] and [/] apply it. *)
Definition to_number (p : Property JS.number) : JS.number :=
  match p with
  | Value n => n
  | Null => 0%float
  | Absent | Undefined => nan
  end.

(** A stored offer as an upgrade sees it: the properties the upgrades
    read or write, and the key of the record. *)
Record StoredOffer : Type := mkStoredOffer {
  so_id : string;
  so_rate : Property JS.number;
  so_cashbackCap : Property JS.number;
  so_status : Property OfferStatus;
  so_creditedToLifetime : Property bool;
  so_archivedAt : Property JS.number;
  so_rewardType : Property OfferRewardType;
  so_rewardAmount : Property JS.number;
  so_spendThreshold : Property JS.number
}.

(** The callback of [modify] in the upgrade to version 2. *)
Definition upgrade_v2_offer (next : StoredOffer) : StoredOffer :=
  let status' :=
    if negb (has_key (so_status next)) || is_falsy (so_status next)
    then Value active else so_status next in
  let credited' :=
    if negb (has_key (so_creditedToLifetime next))
       || is_nullish (so_creditedToLifetime next)
    then Value false else so_creditedToLifetime next in
  let archivedAt' :=
    if negb (has_key (so_archivedAt next)) then Undefined
    else so_archivedAt next in
  mkStoredOffer (so_id next) (so_rate next) (so_cashbackCap next)
    status' credited' archivedAt'
    (so_rewardType next) (so_rewardAmount next) (so_spendThreshold next).

(** The callback of [modify] in the upgrade to version 3. *)
Definition upgrade_v3_offer (next : StoredOffer) : StoredOffer :=
  let rewardType' :=
    if is_falsy (so_rewardType next) then Value percentage
    else so_rewardType next in
  let cap := nullish_or (so_cashbackCap next) 0%float in
  let '(rewardAmount', spendThreshold') :=
    match rewardType' with
    | Value percentage =>
        (if is_nullish (so_rewardAmount next) then Value cap
         else so_rewardAmount next,
         if is_nullish (so_spendThreshold next)
            && JS.gt (to_number (so_rate next)) 0
         then Value (cap / to_number (so_rate next))%float
         else so_spendThreshold next)
    | _ =>
        (if is_nullish (so_rewardAmount next) then Value cap
         else so_rewardAmount next,
         if is_nullish (so_spendThreshold next) then Value 0%float
         else so_spendThreshold next)
    end in
  mkStoredOffer (so_id next) (so_rate next) (so_cashbackCap next)
    (so_status next) (so_creditedToLifetime next) (so_archivedAt next)
    rewardType' rewardAmount' spendThreshold'.

(** The tables an upgrade transaction works on. *)
Record UpgradeStore : Type := mkUpgradeStore {
  up_offers : gmap string StoredOffer;
  up_stats : gmap string AppStats
}.

(** The upgrade to version 2; [now] is the reading of [Date.now()] for a
    stats record it creates. *)
Definition upgrade_v2 (now : JS.number) (tx : UpgradeStore) : UpgradeStore :=
  let offers' := upgrade_v2_offer <$> up_offers tx in
  let stats' :=
    match up_stats tx !! "app" with
    | Some existing => up_stats tx
    | None => <["app" := mkAppStats "app" 0%float now]> (up_stats tx)
    end in
  mkUpgradeStore offers' stats'.

Definition upgrade_v3 (tx : UpgradeStore) : UpgradeStore :=
  mkUpgradeStore (upgrade_v3_offer <$> up_offers tx) (up_stats tx).

(** ** The rest of [offers.ts] *)

Definition LARGE_NUMBER : JS.number := infinity.

(** [x !== y] on numbers: [NaN] differs from itself, the two zeros do
    not differ. *)
Definition number_strict_ne (x y : JS.number) : bool :=
  negb (PrimFloat.eqb x y).

Definition getRemainingSpendToCap (offer : Offer) : JS.number :=
  if is_threshold offer then
    let threshold := spendThreshold offer ?? 0%float in
    if JS.le threshold 0 then 0%float
    else JS.Math_max 0 (threshold - totalSpendTracked offer)%float
  else if JS.le (rate offer) 0 then LARGE_NUMBER
  else
    let remainCashback :=
      JS.Math_max 0 (cashbackCap offer - cashbackEarned offer)%float in
    if JS.le remainCashback EPSILON then 0%float
    else (remainCashback / rate offer)%float.

(** [expireAt] and [createdAt] are numbers in every [Offer], so that
    [a.expireAt ?? LARGE_NUMBER] and [a.createdAt ?? 0] are the
    properties themselves. *)
Definition sortOffersByExpiry (a b : Offer) : JS.number :=
  let ax := expireAt a in
  let bx := expireAt b in
  if number_strict_ne ax bx then (ax - bx)%float
  else
    let aRemain := getRemainingSpendToCap a in
    let bRemain := getRemainingSpendToCap b in
    if number_strict_ne aRemain bRemain then (aRemain - bRemain)%float
    else (createdAt a - createdAt b)%float.

(** ** The rest of the lifecycle actions ([db.ts]) *)

(** [db.spendLogs.where("offerId").equals(offerId).delete()] *)
Definition spendLogs_delete_where_offerId (key : string) : IO unit :=
  fun w =>
    let t := tables w in
    (Returned tt,
     set_tables
       (mkTables (cards t) (offers t)
          (filter (fun kv => offerId kv.2 <> key) (spendLogs t))
          (stats t)) w).

Definition offers_delete (key : string) : IO unit :=
  fun w =>
    let t := tables w in
    (Returned tt,
     set_tables
       (mkTables (cards t) (delete key (offers t)) (spendLogs t) (stats t)) w).

Definition deleteOfferPermanently (offerId : string) : IO unit :=
  getDb ;;
  transaction (
    spendLogs_delete_where_offerId offerId ;;
    offers_delete offerId).

(** ** Logging a purchase ([quick-log-panel.tsx])

    [handleSubmit] of the quick-log panel, from the parsed amount on:
    [uuid] is what [crypto.randomUUID()] returns, [note] the trimmed
    note.  The result is the message the panel shows, as a status or as
    an error. *)

Inductive Message : Type :=
  | StatusMessage (text : string)
  | ErrorMessage (text : string)
  | NoMessage.

(** [db.spendLogs.add(log)]: adding under a key in use is refused. *)
Definition spendLogs_add (log : SpendLog) : IO unit :=
  fun w =>
    let t := tables w in
    match spendLogs t !! log_id log with
    | Some _ => throw "ConstraintError" w
    | None =>
        (Returned tt,
         set_tables
           (mkTables (cards t) (offers t)
              (<[log_id log := log]> (spendLogs t)) (stats t)) w)
    end.

Definition with_totalSpendTracked (v : JS.number) (o : Offer) : Offer :=
  mkOffer (id o) (merchant o) (cardId o) (rewardType o) (rate o)
    (cashbackCap o) (spendThreshold o) (rewardAmount o) (cashbackEarned o)
    v (expireAt o) (category o) (note o) (status o)
    (archivedAt o) (creditedToLifetime o) (createdAt o) (updatedAt o).

(** [try { ... } catch (err) { ... }] *)
Definition try_catch {A} (body : IO A) (handler : string -> IO A) : IO A :=
  fun w =>
    match body w with
    | (Returned a, w') => (Returned a, w')
    | (Thrown message, w') => handler message w'
    end.

Definition quickLog_handleSubmit (dbReady : bool)
    (selectedOffer : option Offer) (numericAmount : JS.number)
    (uuid : string) (note : string) : IO Message :=
  match dbReady, selectedOffer with
  | true, Some selectedOffer =>
      if negb (is_finite numericAmount) || JS.le numericAmount 0 then
        mret (ErrorMessage "Enter a valid purchase amount greater than $0.")
      else
        try_catch (
          now ← Date_now ;
          transaction (
            spendLogs_add
              (mkSpendLog uuid (id selectedOffer) numericAmount
                 (if decide (note = "") then None else Some note) now) ;;
            latest ← offers_get (id selectedOffer) ;
            match latest with
            | None => throw "Offer no longer exists."
            | Some latest =>
                offers_put
                  (with_updatedAt now
                     (with_totalSpendTracked
                        (Number_toFixed2
                           (totalSpendTracked latest + numericAmount)%float)
                        latest))
            end) ;;
          mret (StatusMessage "Purchase saved."))
          (fun _ =>
             mret (ErrorMessage
                     "Unable to save this purchase. Please try again."))
  | _, _ => mret NoMessage
  end.

(** ** Persisting corrected statuses ([dashboard.tsx], [history/page.tsx])

    The effect that the pages run on the offers they have loaded. *)

(** [normalizeOffer] as a caller runs it, reading the clock. *)
Definition normalizeOffer_io (offer : Offer) : IO Offer :=
  status' ← computeStatus_io offer ;
  mret (if bool_decide (status' <> status offer)
           && bool_decide (status offer <> archived)
        then with_status status' offer
        else offer).

(** [offers.map(...).filter(...)]: the normalized offers whose status
    differs from the loaded one. *)
Fixpoint status_updates (loaded : list Offer) : IO (list Offer) :=
  match loaded with
  | [] => mret []
  | offer :: rest =>
      normalized ← normalizeOffer_io offer ;
      updates ← status_updates rest ;
      mret (if bool_decide (status normalized <> status offer)
            then normalized :: updates
            else updates)
  end.

(** [Promise.all(updates.map((offer) => db.offers.put(offer)))] *)
Fixpoint put_all (updates : list Offer) : IO unit :=
  match updates with
  | [] => mret tt
  | offer :: rest => offers_put offer ;; put_all rest
  end.

Definition persist_normalized (dbReady : bool) (loaded : list Offer) : IO unit :=
  if negb dbReady || bool_decide (length loaded = 0) then mret tt
  else
    updates ← status_updates loaded ;
    if bool_decide (length updates = 0) then mret tt
    else transaction (put_all updates).

(** ** Creating and editing an offer (the offers page)

    [handleCreate] and [handleEdit], from the parsed form on: [data] is
    the [data] of a successful [parseOfferForm]. *)

Record ParsedOfferData : Type := mkParsedOfferData {
  pd_merchant : string;
  pd_cardId : string;
  pd_rate : JS.number;
  pd_cashbackCap : JS.number;
  pd_cashbackEarned : JS.number;
  pd_totalSpendTracked : JS.number;
  pd_expireAt : JS.number;
  pd_category : OfferCategory;
  pd_note : option string;
  pd_rewardType : OfferRewardType;
  pd_rewardAmount : JS.number;
  pd_spendThreshold : JS.number
}.

(** [db.offers.add(offer)]: adding under a key in use is refused. *)
Definition offers_add (o : Offer) : IO unit :=
  fun w =>
    let t := tables w in
    match offers t !! id o with
    | Some _ => throw "ConstraintError" w
    | None =>
        (Returned tt,
         set_tables
           (mkTables (cards t) (<[id o := o]> (offers t)) (spendLogs t)
              (stats t)) w)
    end.

(** [{ id: uuid, ...data, status: "active", archivedAt: undefined,
    creditedToLifetime: false, createdAt: now, updatedAt: now }] *)
Definition new_offer (uuid : string) (data : ParsedOfferData)
    (now : JS.number) : Offer :=
  mkOffer uuid (pd_merchant data) (pd_cardId data)
    (Some (pd_rewardType data)) (pd_rate data) (pd_cashbackCap data)
    (Some (pd_spendThreshold data)) (Some (pd_rewardAmount data))
    (pd_cashbackEarned data) (pd_totalSpendTracked data) (pd_expireAt data)
    (pd_category data) (pd_note data) active None (Some false) now now.

(** [{ ...existing, ...data, id: existing.id, status: existing.status,
    archivedAt: existing.archivedAt,
    creditedToLifetime: existing.creditedToLifetime ?? false,
    createdAt: existing.createdAt, updatedAt: now }] *)
Definition edited_offer (existing : Offer) (data : ParsedOfferData)
    (now : JS.number) : Offer :=
  mkOffer (id existing) (pd_merchant data) (pd_cardId data)
    (Some (pd_rewardType data)) (pd_rate data) (pd_cashbackCap data)
    (Some (pd_spendThreshold data)) (Some (pd_rewardAmount data))
    (pd_cashbackEarned data) (pd_totalSpendTracked data) (pd_expireAt data)
    (pd_category data) (pd_note data) (status existing)
    (archivedAt existing) (Some (creditedToLifetime existing ?? false))
    (createdAt existing) now.

Definition handleCreate (dbReady : bool) (data : ParsedOfferData)
    (uuid : string) : IO Message :=
  if negb dbReady then mret NoMessage
  else
    try_catch (
      now ← Date_now ;
      let draft := recalcOfferProgress (new_offer uuid data now) in
      normalized ← normalizeOffer_io draft ;
      offers_add normalized ;;
      mret (StatusMessage "Offer saved."))
      (fun _ =>
         mret (ErrorMessage "Unable to save the offer. Please try again.")).

Definition handleEdit (dbReady : bool) (editingId : option string)
    (data : ParsedOfferData) : IO Message :=
  match dbReady, editingId with
  | true, Some editingId =>
      if decide (editingId = "") then mret NoMessage
      else
      try_catch (
        now ← Date_now ;
        existing ← offers_get editingId ;
        match existing with
        | None => mret (ErrorMessage "Offer no longer exists.")
        | Some existing =>
            let updated :=
              recalcOfferProgress (edited_offer existing data now) in
            normalized ←
              (if bool_decide (status existing = archived) then mret updated
               else normalizeOffer_io updated) ;
            offers_put normalized ;;
            mret (StatusMessage "Offer updated.")
        end)
        (fun _ =>
           mret (ErrorMessage
                   "Unable to update the offer. Please try again."))
  | _, _ => mret NoMessage
  end.

(** * Definitions for the statements *)

(** ** Concrete offers *)

(** A percentage offer (5% up to 50) with a zero rate override and 5
    already recorded as earned. *)
Definition rateless_offer : Offer :=
  mkOffer "o-1" "Cafe" "card-1" (Some percentage) 0%float 50%float None None
    5%float 100%float 1767225599000%float Dining None active None None
    1700000000000%float 1700000000000%float.

(** A threshold offer: spend 125, get 25. *)
Definition spend125_get25 (spent : JS.number) (st : OfferStatus) : Offer :=
  mkOffer "o-2" "Grocer" "card-1" (Some threshold) 0.2%float 25%float
    (Some 125%float) (Some 25%float)
    0%float spent 1767225599000%float Grocery None st None None
    1700000000000%float 1700000000000%float.

(** A threshold offer whose threshold was backfilled to 0, with 7 recorded
    as earned. *)
Definition zero_threshold_offer : Offer :=
  mkOffer "o-3" "Airline" "card-2" (Some threshold) 0%float 25%float
    (Some 0%float) (Some 25%float)
    7%float 300%float 1767225599000%float Travel None active None None
    1700000000000%float 1700000000000%float.

(** The reward of a threshold offer: [rewardAmount ?? cashbackCap]. *)
Definition reward_of (o : Offer) : JS.number := rewardAmount o ?? cashbackCap o.

(** The lifetime total before a credit: that of the stats record, or 0
    when [getOrCreateStats] has to create it. *)
Definition prior_lifetime (t : Tables) : JS.number :=
  match stats t !! STATS_KEY with
  | Some s => lifetimeCashbackEarned s
  | None => 0%float
  end.

(** Records are stored under their [id] property (the key path of the
    [offers] and [stats] tables). *)
Definition well_keyed (t : Tables) : Prop :=
  (forall k o, offers t !! k = Some o -> id o = k) /\
  (forall k s, stats t !! k = Some s -> stats_id s = k).

(** A 5% offer capped at 50 after one purchase of 10.05; [credited] is
    its [creditedToLifetime] property. *)
Definition coffee_offer (credited : option bool) : Offer :=
  mkOffer "o-4" "Roastery" "card-1" (Some percentage) 0.05%float 50%float
    (Some 1000%float) (Some 50%float)
    0.5025%float 10.05%float 1767225599000%float Dining None active None
    credited 1700000000000%float 1700000000000%float.

(** A store with that one offer and a lifetime total of 12. *)
Definition coffee_world (credited : option bool) : World :=
  mkWorld true
    (mkTables ∅ {[ "o-4" := coffee_offer credited ]} ∅
       {[ "app" := mkAppStats "app" 12%float 1700000000000%float ]})
    (fun n => (1767000000000 + PrimFloat.of_uint63 (Uint63.of_nat n))%float)
    0.

(** ** Shapes of a binary64 value *)

(** Not [NaN] and not below zero. *)
Definition sf_nonneg (f : spec_float) : bool :=
  match f with
  | S754_nan => false
  | S754_zero _ => true
  | S754_infinity s | S754_finite s _ _ => negb s
  end.

(** A zero, or a finite number above zero. *)
Definition sf_finite_nonneg (f : spec_float) : bool :=
  match f with
  | S754_zero _ => true
  | S754_finite s _ _ => negb s
  | _ => false
  end.

(** A finite number above zero. *)
Definition sf_finite_pos (f : spec_float) : bool :=
  match f with
  | S754_finite s _ _ => negb s
  | _ => false
  end.

(** ** More shapes of a binary64 value *)

(** [NaN], or above zero. *)
Definition sf_pos_or_nan (f : spec_float) : bool :=
  match f with
  | S754_nan => true
  | S754_zero _ => false
  | S754_infinity s | S754_finite s _ _ => negb s
  end.

(** Not below zero: [NaN], a zero, or above zero. *)
Definition sf_not_below (f : spec_float) : bool :=
  match f with
  | S754_nan | S754_zero _ => true
  | S754_infinity s | S754_finite s _ _ => negb s
  end.

(** Below zero, above zero. *)
Definition sf_lt0 (f : spec_float) : bool := SFltb f (S754_zero false).
Definition sf_gt0 (f : spec_float) : bool := SFltb (S754_zero false) f.

(** ** More definitions for the statements *)

(** An offer whose own parameter rules accrual out: a threshold offer
    with a missing or non-positive threshold, a percentage offer with a
    non-positive rate. *)
Definition degenerate (o : Offer) : bool :=
  if is_threshold o then JS.le (spendThreshold o ?? 0%float) 0
  else JS.le (rate o) 0.

(** What [archiveOffer] stores for an offer: the recalculated offer,
    archived at [a], updated at [u], credited. *)
Definition archived_snapshot (o : Offer) (a u : JS.number) : Offer :=
  with_creditedToLifetime (Some true)
    (with_updatedAt u
       (with_archivedAt (Some a)
          (with_status archived (recalcOfferProgress o)))).

(** The amount test of the quick-log panel: a finite number above zero. *)
Definition valid_amount (amount : JS.number) : bool :=
  negb (negb (is_finite amount) || JS.le amount 0).

(** A status correction of a loaded offer that is not archived. *)
Definition status_correction (loaded : list Offer) (u : Offer) : Prop :=
  exists o s, o ∈ loaded /\ u = with_status s o /\
    status o <> archived /\ s <> archived /\ s <> status o.

(** An offer that expires one second after the coffee offer. *)
Definition bakery_offer : Offer :=
  mkOffer "o-8" "Bakery" "card-1" (Some percentage) 0.05%float 50%float
    None None 0%float 0%float 1767225600000%float Dining None active
    None None 1700000000000%float 1700000000000%float.

(** The coffee store with two purchases logged, one for the coffee offer
    and one for another offer. *)
Definition logged_world : World :=
  mkWorld true
    (mkTables ∅ {[ "o-4" := coffee_offer None ]}
       {[ "l-1" := mkSpendLog "l-1" "o-4" 10.05%float None 1700000001000%float;
          "l-2" := mkSpendLog "l-2" "o-7" 20%float None 1700000002000%float ]}
       {[ "app" := mkAppStats "app" 12%float 1700000000000%float ]})
    (fun n => (1767000000000 + PrimFloat.of_uint63 (Uint63.of_nat n))%float)
    0.

(** The same store in an environment without IndexedDB. *)
Definition offline_world : World :=
  mkWorld false (tables (coffee_world None)) (clock (coffee_world None)) 0.

(** The edit form of the coffee offer, raising its cap to 80. *)
Definition coffee_form : ParsedOfferData :=
  mkParsedOfferData "Roastery" "card-1" 0.05%float 80%float 0.5%float
    10.05%float 1767225599000%float Dining None percentage 80%float
    1600%float.

(** * Properties *)

(** ** Proof tools *)

(** Closes a goal with a hypothesis [H : x = y] between two numbers that
    the comparison of the language tells apart. *)
Ltac numbers_differ H :=
  exfalso;
  match type of H with
  | ?x = ?y =>
      let E := fresh "E" in
      pose proof (f_equal (fun v => PrimFloat.eqb v y) H) as E;
      vm_compute in E; discriminate E
  end.

Lemma with_cashbackEarned_same (o : Offer) :
  with_cashbackEarned (cashbackEarned o) o = o.
Proof. destruct o; reflexivity. Qed.

(** [recalcOfferProgress] is a spread of its input with one property
    replaced. *)
Lemma recalcOfferProgress_spread (o : Offer) :
  exists c, recalcOfferProgress o = with_cashbackEarned c o.
Proof.
  unfold recalcOfferProgress.
  destruct (is_threshold o).
  - destruct (JS.le _ 0); eexists; reflexivity.
  - destruct (JS.le (rate o) 0).
    + exists (cashbackEarned o). symmetry. apply with_cashbackEarned_same.
    + eexists; reflexivity.
Qed.

(** ** Binary64 arithmetic

    What the proofs below need of the numbers: comparisons are
    asymmetric, rounding keeps the sign, [Math.min] picks one of its
    arguments. *)

Section Binary64.

Implicit Types (x y : JS.number) (f g : spec_float).

Lemma SFcompare_antisym f g :
  SFcompare g f = option_map CompOpp (SFcompare f g).
Proof.
  destruct f as [s1|s1| |s1 m1 e1], g as [s2|s2| |s2 m2 e2]; cbn;
    try destruct s1; try destruct s2; cbn; try reflexivity.
  all: assert (Hm : PosDef.Pos.compare_cont Eq m2 m1
                    = CompOpp (PosDef.Pos.compare_cont Eq m1 m2))
         by exact (Pos.compare_antisym m1 m2).
  all: rewrite (Z.compare_antisym e1 e2); destruct (e1 ?= e2)%Z; cbn;
    try reflexivity.
  all: rewrite Hm; reflexivity.
Qed.

Lemma ltb_asym x y : PrimFloat.ltb x y = true -> PrimFloat.ltb y x = false.
Proof.
  rewrite !FloatAxioms.ltb_spec. unfold SFltb.
  rewrite (SFcompare_antisym (Prim2SF x) (Prim2SF y)).
  destruct (SFcompare (Prim2SF x) (Prim2SF y)) as [[| |]|]; cbn;
    congruence.
Qed.

Lemma ltb_leb x y : PrimFloat.ltb x y = true -> PrimFloat.leb x y = true.
Proof.
  rewrite FloatAxioms.ltb_spec, FloatAxioms.leb_spec. unfold SFltb, SFleb.
  destruct (SFcompare (Prim2SF x) (Prim2SF y)) as [[| |]|]; congruence.
Qed.

(** [Math.min(x, 1)] is never above 1. *)
Lemma Math_min_1_not_above x : JS.gt (JS.Math_min x 1) 1 = false.
Proof.
  unfold JS.gt, JS.Math_min.
  destruct (is_nan x || is_nan 1); [reflexivity|].
  destruct (PrimFloat.ltb x 1) eqn:Hlt; [apply ltb_asym; exact Hlt|].
  destruct (PrimFloat.ltb 1 x) eqn:Hgt; [reflexivity|].
  destruct (get_sign x); [exact Hgt | reflexivity].
Qed.

Lemma le_0_spec x : JS.le 0 x = sf_nonneg (Prim2SF x).
Proof.
  unfold JS.le. rewrite FloatAxioms.leb_spec.
  change (Prim2SF 0) with (S754_zero false).
  destruct (Prim2SF x) as [s|s| |s m e]; try destruct s; reflexivity.
Qed.

Lemma is_finite_spec x :
  is_finite x = true ->
  match Prim2SF x with S754_zero _ | S754_finite _ _ _ => True | _ => False end.
Proof.
  unfold is_finite, is_nan, is_infinity.
  rewrite !FloatAxioms.eqb_spec, FloatAxioms.abs_spec.
  change (Prim2SF infinity) with (S754_infinity false).
  destruct (Prim2SF x) as [s|s| |s m e]; try destruct s; cbn;
    try discriminate; trivial.
Qed.

Lemma finite_nonneg_spec x :
  is_finite x = true -> JS.le 0 x = true -> sf_finite_nonneg (Prim2SF x) = true.
Proof.
  intros Hf%is_finite_spec. rewrite le_0_spec.
  destruct (Prim2SF x) as [s|s| |s m e]; cbn; tauto.
Qed.

Lemma finite_pos_spec x :
  is_finite x = true -> JS.le x 0 = false -> sf_finite_pos (Prim2SF x) = true.
Proof.
  intros Hf%is_finite_spec. unfold JS.le. rewrite FloatAxioms.leb_spec.
  change (Prim2SF 0) with (S754_zero false).
  destruct (Prim2SF x) as [s|s| |s m e]; try destruct s; cbn;
    try tauto; try discriminate.
Qed.

(** *** Rounding keeps the sign *)

Lemma shr_1_nonneg (mrs : shr_record) :
  (0 <= shr_m mrs)%Z -> (0 <= shr_m (shr_1 mrs))%Z.
Proof. destruct mrs as [[|[p|p|]|p] r s]; cbn; lia. Qed.

Lemma iter_shr_1_nonneg (p : positive) (mrs : shr_record) :
  (0 <= shr_m mrs)%Z -> (0 <= shr_m (SpecFloat.iter_pos shr_1 p mrs))%Z.
Proof.
  revert mrs. induction p as [p IH|p IH|]; intros mrs Hm; cbn.
  - apply IH, IH, shr_1_nonneg, Hm.
  - apply IH, IH, Hm.
  - apply shr_1_nonneg, Hm.
Qed.

Lemma shr_fexp_nonneg (m e : Z) (l : location) :
  (0 <= m)%Z -> (0 <= shr_m (fst (shr_fexp prec emax m e l)))%Z.
Proof.
  intros Hm. unfold shr_fexp, shr.
  assert (H0 : (0 <= shr_m (shr_record_of_loc m l))%Z)
    by (destruct l as [|[| |]]; exact Hm).
  destruct (fexp prec emax (Zdigits2 m + e) - e)%Z as [|p|p]; cbn;
    [exact H0 | apply iter_shr_1_nonneg, H0 | exact H0].
Qed.

Lemma round_nearest_even_nonneg (m : Z) (l : location) :
  (0 <= m)%Z -> (0 <= round_nearest_even m l)%Z.
Proof.
  intros Hm. destruct l as [|[| |]]; cbn; try lia.
  destruct (Z.even m); lia.
Qed.

(** Rounding a magnitude gives a zero, a finite number or an infinity of
    the sign asked for. *)
Lemma binary_round_aux_sign (s : bool) (m e : Z) (l : location) :
  (0 <= m)%Z ->
  match binary_round_aux prec emax s m e l with
  | S754_nan => False
  | S754_zero s' | S754_infinity s' | S754_finite s' _ _ => s' = s
  end.
Proof.
  intros Hm. unfold binary_round_aux.
  pose proof (shr_fexp_nonneg m e l Hm) as H1.
  destruct (shr_fexp prec emax m e l) as [mrs1 e1]. cbn in H1.
  pose proof (shr_fexp_nonneg _ e1 loc_Exact
                (round_nearest_even_nonneg _ (loc_of_shr_record mrs1) H1)) as H2.
  destruct (shr_fexp prec emax _ e1 loc_Exact) as [mrs2 e2]. cbn in H2.
  destruct (shr_m mrs2) as [|p|p]; [reflexivity| |lia].
  destruct (e2 <=? emax - prec)%Z; reflexivity.
Qed.

Lemma binary_round_aux_nonneg (m e : Z) (l : location) :
  (0 <= m)%Z -> sf_nonneg (binary_round_aux prec emax false m e l) = true.
Proof.
  intros Hm. pose proof (binary_round_aux_sign false m e l Hm) as H.
  destruct (binary_round_aux prec emax false m e l); cbn;
    [reflexivity | subst; reflexivity | contradiction | subst; reflexivity].
Qed.

Lemma SFmul_nonneg f g :
  sf_finite_nonneg f = true -> sf_finite_pos g = true ->
  sf_nonneg (SFmul prec emax f g) = true.
Proof.
  destruct f as [s1|s1| |[|] m1 e1], g as [s2|s2| |[|] m2 e2];
    cbn; try discriminate; intros _ _.
  - destruct s1; reflexivity.
  - apply binary_round_aux_nonneg. lia.
Qed.

Lemma SFdiv_nonneg f g :
  sf_finite_nonneg f = true -> sf_finite_pos g = true ->
  sf_nonneg (SFdiv prec emax f g) = true.
Proof.
  destruct f as [s1|s1| |[|] m1 e1], g as [s2|s2| |[|] m2 e2];
    cbn -[SFdiv_core_binary]; try discriminate; intros _ _.
  - destruct s1; reflexivity.
  - unfold SFdiv_core_binary.
    set (m' := match _ with Z0 => _ | Z.pos _ => _ | Z.neg _ => _ end).
    assert (Hm' : (0 <= m')%Z).
    { subst m'. destruct (_ - _ - _)%Z; [lia | | lia].
      apply Z.shiftl_nonneg. lia. }
    pose proof (Z.div_pos m' (Z.pos m2) Hm' ltac:(lia)) as Hq.
    unfold Z.div in Hq.
    destruct (Z.div_eucl m' (Z.pos m2)) as [q r].
    apply binary_round_aux_nonneg. exact Hq.
Qed.

(** *** Numbers *)

Lemma SFcompare_refl f : f <> S754_nan -> SFcompare f f = Some Eq.
Proof.
  destruct f as [s|s| |s m e]; cbn; try congruence; intros _.
  - destruct s; reflexivity.
  - assert (Hm : PosDef.Pos.compare_cont Eq m m = Eq)
      by exact (Pos.compare_refl m).
    rewrite Z.compare_refl, Hm. destruct s; reflexivity.
Qed.

Lemma is_nan_spec x : is_nan x = false <-> Prim2SF x <> S754_nan.
Proof.
  unfold is_nan. rewrite FloatAxioms.eqb_spec. unfold SFeqb. split.
  - intros H Hn. rewrite Hn in H. discriminate.
  - intros Hn. rewrite (SFcompare_refl _ Hn). reflexivity.
Qed.

Lemma nonneg_not_nan x : JS.le 0 x = true -> is_nan x = false.
Proof.
  rewrite le_0_spec. intros H. apply is_nan_spec. intros Hn.
  rewrite Hn in H. discriminate.
Qed.

Lemma is_finite_intro x :
  match Prim2SF x with S754_zero _ | S754_finite _ _ _ => True | _ => False end ->
  is_finite x = true.
Proof.
  intros Hs. unfold is_finite.
  assert (Hn : is_nan x = false).
  { apply is_nan_spec. intros Hn. rewrite Hn in Hs. exact Hs. }
  rewrite Hn. unfold is_infinity.
  rewrite FloatAxioms.eqb_spec, FloatAxioms.abs_spec.
  change (Prim2SF infinity) with (S754_infinity false).
  destruct (Prim2SF x) as [s|s| |s m e]; try contradiction; reflexivity.
Qed.

Lemma div_nonneg x y :
  is_finite x = true -> JS.le 0 x = true ->
  is_finite y = true -> JS.le y 0 = false ->
  JS.le 0 (x / y) = true.
Proof.
  intros Hfx Hx Hfy Hy. rewrite le_0_spec, FloatAxioms.div_spec.
  apply SFdiv_nonneg;
    [apply finite_nonneg_spec | apply finite_pos_spec]; assumption.
Qed.

Lemma mul_nonneg x y :
  is_finite x = true -> JS.le 0 x = true ->
  is_finite y = true -> JS.le y 0 = false ->
  JS.le 0 (x * y) = true.
Proof.
  intros Hfx Hx Hfy Hy. rewrite le_0_spec, FloatAxioms.mul_spec.
  apply SFmul_nonneg;
    [apply finite_nonneg_spec | apply finite_pos_spec]; assumption.
Qed.

Lemma gt_not_le x y : JS.gt x y = true -> JS.le x y = false.
Proof.
  unfold JS.gt, JS.le. rewrite FloatAxioms.ltb_spec, FloatAxioms.leb_spec.
  unfold SFltb, SFleb.
  rewrite (SFcompare_antisym (Prim2SF y) (Prim2SF x)).
  destruct (SFcompare (Prim2SF y) (Prim2SF x)) as [[| |]|]; cbn; congruence.
Qed.

Lemma not_lt_le x y :
  is_nan x = false -> is_nan y = false ->
  PrimFloat.ltb y x = false -> PrimFloat.leb x y = true.
Proof.
  intros Hx%is_nan_spec Hy%is_nan_spec.
  rewrite FloatAxioms.ltb_spec, FloatAxioms.leb_spec. unfold SFltb, SFleb.
  rewrite (SFcompare_antisym (Prim2SF x) (Prim2SF y)).
  destruct (Prim2SF x) as [s1|s1| |s1 m1 e1], (Prim2SF y) as [s2|s2| |s2 m2 e2];
    try congruence; cbn;
    try destruct s1; try destruct s2; cbn; try congruence.
  all: destruct (e1 ?= e2)%Z; cbn; try congruence.
  all: destruct (PosDef.Pos.compare_cont Eq m1 m2); cbn; congruence.
Qed.

(** Without [NaN], [Math.min] returns one of its arguments, and the
    other one is not below it. *)
Lemma Math_min_cases x y :
  is_nan x = false -> is_nan y = false ->
  (JS.Math_min x y = x /\ PrimFloat.ltb y x = false) \/
  (JS.Math_min x y = y /\ PrimFloat.ltb x y = false).
Proof.
  intros Hx Hy. unfold JS.Math_min. rewrite Hx, Hy.
  change (false || false) with false. cbv iota.
  destruct (PrimFloat.ltb x y) eqn:Hlt.
  - left. split; [reflexivity | apply ltb_asym, Hlt].
  - destruct (PrimFloat.ltb y x) eqn:Hgt; [right; split; reflexivity|].
    destruct (get_sign x); [left | right]; split; reflexivity.
Qed.

(** A number that is not below zero and that a finite number is not
    below is finite. *)
Lemma nonneg_bounded_finite x y :
  JS.le 0 x = true -> is_finite y = true ->
  PrimFloat.ltb y x = false -> is_finite x = true.
Proof.
  rewrite le_0_spec. intros Hx Hy%is_finite_spec.
  rewrite FloatAxioms.ltb_spec. unfold SFltb. intros Hlt.
  apply is_finite_intro.
  destruct (Prim2SF x) as [s1|s1| |s1 m1 e1]; cbn in Hx; try discriminate;
    trivial.
  destruct s1; [discriminate|].
  destruct (Prim2SF y) as [s2|s2| |s2 m2 e2]; cbn in Hlt; try contradiction;
    discriminate.
Qed.

Lemma Math_min_finite_nonneg x y :
  JS.le 0 x = true -> JS.le 0 y = true ->
  is_finite x = true \/ is_finite y = true ->
  is_finite (JS.Math_min x y) = true /\ JS.le 0 (JS.Math_min x y) = true.
Proof.
  intros Hx Hy Hfin.
  destruct (Math_min_cases x y (nonneg_not_nan x Hx) (nonneg_not_nan y Hy))
    as [[-> Hlt] | [-> Hlt]]; (split; [|assumption]).
  - destruct Hfin as [Hf | Hf]; [exact Hf|].
    exact (nonneg_bounded_finite x y Hx Hf Hlt).
  - destruct Hfin as [Hf | Hf]; [|exact Hf].
    exact (nonneg_bounded_finite y x Hy Hf Hlt).
Qed.

(** [Math.min(q, 1)] of a number that is not below zero lies between 0
    and 1. *)
Lemma Math_min_1_unit x :
  JS.le 0 x = true ->
  JS.le 0 (JS.Math_min x 1) = true /\ JS.le (JS.Math_min x 1) 1 = true.
Proof.
  intros Hx.
  destruct (Math_min_cases x 1 (nonneg_not_nan x Hx) eq_refl)
    as [[-> Hlt] | [-> Hlt]].
  - split; [exact Hx|].
    apply not_lt_le; [apply nonneg_not_nan, Hx | reflexivity | exact Hlt].
  - split; reflexivity.
Qed.

End Binary64.

(** ** Offer math *)

Section OfferMath.

Implicit Types (o : Offer) (now : JS.number).

(** C1, as stated, fails: a percentage offer with rate 0 and 5 recorded as
    earned is projected with [earned = 5], not with all zeros. *)
Lemma computeOfferStats_rateless_not_all_zero :
  rewardType rateless_offer = Some percentage /\
  JS.le (rate rateless_offer) 0 = true /\
  computeOfferStats rateless_offer <> mkOfferStats 0 0 0 0.
Proof.
  split; [reflexivity|]. split; [reflexivity|].
  intros H. apply (f_equal earned) in H. vm_compute in H. numbers_differ H.
Qed.

(** C1 (amended): for every offer that is not of the threshold type and
    whose rate is [<= 0], [computeOfferStats] returns the stored
    [cashbackEarned] as [earned], and 0 for [remainCashback],
    [remainSpendToCap] and [percent], whatever [totalSpendTracked] is. *)
Theorem computeOfferStats_rateless o :
  is_threshold o = false ->
  JS.le (rate o) 0 = true ->
  computeOfferStats o = mkOfferStats (cashbackEarned o) 0 0 0.
Proof.
  intros Hty Hrate. unfold computeOfferStats. rewrite Hty, Hrate. reflexivity.
Qed.

Lemma computeOfferStats_rateless_witness :
  is_threshold rateless_offer = false /\
  JS.le (rate rateless_offer) 0 = true /\
  computeOfferStats rateless_offer = mkOfferStats 5 0 0 0.
Proof.
  split; [reflexivity|]. split; [reflexivity|].
  apply (computeOfferStats_rateless rateless_offer); reflexivity.
Defined.

(** C5, as stated, fails: a threshold offer whose threshold is 0 is
    projected with the stored [cashbackEarned], here 7, which is neither
    0 nor the reward amount 25. *)
Lemma computeOfferStats_threshold_partial :
  rewardType zero_threshold_offer = Some threshold /\
  rewardAmount zero_threshold_offer = Some 25%float /\
  earned (computeOfferStats zero_threshold_offer) <> 0%float /\
  earned (computeOfferStats zero_threshold_offer) <> 25%float.
Proof.
  repeat split; intros H; vm_compute in H; numbers_differ H.
Qed.

(** C5 (amended): for every threshold offer whose [spendThreshold] is
    present and not [<= 0], [earned] is either 0 or the reward
    ([rewardAmount], or [cashbackCap] when that is missing), whatever
    [totalSpendTracked] and [cashbackEarned] are stored: the reward
    exactly when [totalSpendTracked >= spendThreshold].  When
    [spendThreshold] is missing or [<= 0], [earned] is the stored
    [cashbackEarned]. *)
Theorem computeOfferStats_threshold_binary o :
  is_threshold o = true ->
  (JS.le (spendThreshold o ?? 0%float) 0 = false ->
     earned (computeOfferStats o) =
       (if JS.ge (totalSpendTracked o) (spendThreshold o ?? 0%float)
        then reward_of o else 0%float) /\
     (earned (computeOfferStats o) = 0%float \/
      earned (computeOfferStats o) = reward_of o)) /\
  (JS.le (spendThreshold o ?? 0%float) 0 = true ->
     earned (computeOfferStats o) = cashbackEarned o).
Proof.
  intros Hty. unfold computeOfferStats, reward_of. rewrite Hty.
  split; intros Hthr; rewrite Hthr; cbn [earned].
  - split; [reflexivity|].
    destruct (JS.ge _ _); [right | left]; reflexivity.
  - reflexivity.
Qed.

Lemma computeOfferStats_threshold_binary_witness :
  is_threshold (spend125_get25 125 active) = true /\
  earned (computeOfferStats (spend125_get25 125 active)) = 25%float /\
  earned (computeOfferStats zero_threshold_offer) = 7%float.
Proof.
  split; [reflexivity|]. split.
  - destruct (computeOfferStats_threshold_binary (spend125_get25 125 active))
      as [H _]; [reflexivity|].
    destruct (H eq_refl) as [-> _]. reflexivity.
  - destruct (computeOfferStats_threshold_binary zero_threshold_offer)
      as [_ H]; [reflexivity|].
    rewrite (H eq_refl). reflexivity.
Defined.

(** C6, as stated, fails at 124.99: the tolerance of [isMaxedOut] is
    inclusive, [124.99 >= 125 - 0.01] holds, and the offer is reported as
    maxed out while nothing is earned yet. *)
Lemma isMaxedOut_one_cent_short :
  earned (computeOfferStats (spend125_get25 124.99 active)) = 0%float /\
  isMaxedOut (spend125_get25 124.99 active) <> false.
Proof. split; [reflexivity | vm_compute; discriminate]. Qed.

(** C6 (amended): for a threshold offer with [spendThreshold = 125] and
    [rewardAmount = 25]: at [totalSpendTracked = 124.99],
    [computeOfferStats] yields [earned = 0] and [percent = 124.99 / 125]
    (between 0.9999 and 1), and [isMaxedOut] already returns true for an
    offer that is not archived, because [124.99 >= 125 - 0.01]; at
    [totalSpendTracked = 125], [earned = 25] and [isMaxedOut] returns true
    for an offer that is not archived. *)
Theorem threshold_125_scenario o :
  rewardType o = Some threshold ->
  spendThreshold o = Some 125%float ->
  rewardAmount o = Some 25%float ->
  (totalSpendTracked o = 124.99%float ->
     earned (computeOfferStats o) = 0%float /\
     percent (computeOfferStats o) = (124.99 / 125)%float /\
     JS.lt 0.9999 (percent (computeOfferStats o)) = true /\
     JS.lt (percent (computeOfferStats o)) 1 = true /\
     (status o <> archived -> isMaxedOut o = true)) /\
  (totalSpendTracked o = 125%float ->
     earned (computeOfferStats o) = 25%float /\
     percent (computeOfferStats o) = 1%float /\
     (status o <> archived -> isMaxedOut o = true)).
Proof.
  intros Hty Hthr Hrew.
  unfold computeOfferStats, isMaxedOut, is_threshold.
  rewrite Hty, Hthr, Hrew.
  split; intros ->; cbn; repeat split; try reflexivity;
    intros Hst; rewrite bool_decide_false by exact Hst; reflexivity.
Qed.

Lemma threshold_125_scenario_witness :
  earned (computeOfferStats (spend125_get25 124.99 active)) = 0%float /\
  isMaxedOut (spend125_get25 124.99 active) = true /\
  earned (computeOfferStats (spend125_get25 125 active)) = 25%float /\
  isMaxedOut (spend125_get25 125 active) = true.
Proof.
  destruct (threshold_125_scenario (spend125_get25 124.99 active)
              eq_refl eq_refl eq_refl) as [H _].
  destruct (H eq_refl) as (He & _ & _ & _ & Hm).
  destruct (threshold_125_scenario (spend125_get25 125 active)
              eq_refl eq_refl eq_refl) as [_ H'].
  destruct (H' eq_refl) as (He' & _ & Hm').
  split; [exact He|]. split; [apply Hm; discriminate|].
  split; [exact He'|]. apply Hm'; discriminate.
Defined.

(** C10: [recalcOfferProgress] changes at most [cashbackEarned]: the
    result is the input with that one property replaced, so it agrees
    with the input on every other property; and for an offer that is not
    of the threshold type and whose rate is [<= 0], the input is returned
    unchanged, [cashbackEarned] included. *)
Theorem recalcOfferProgress_frame o :
  recalcOfferProgress o =
    with_cashbackEarned (cashbackEarned (recalcOfferProgress o)) o /\
  (id (recalcOfferProgress o) = id o /\
   merchant (recalcOfferProgress o) = merchant o /\
   cardId (recalcOfferProgress o) = cardId o /\
   category (recalcOfferProgress o) = category o /\
   note (recalcOfferProgress o) = note o /\
   status (recalcOfferProgress o) = status o /\
   rewardType (recalcOfferProgress o) = rewardType o /\
   rate (recalcOfferProgress o) = rate o /\
   cashbackCap (recalcOfferProgress o) = cashbackCap o /\
   spendThreshold (recalcOfferProgress o) = spendThreshold o /\
   rewardAmount (recalcOfferProgress o) = rewardAmount o /\
   totalSpendTracked (recalcOfferProgress o) = totalSpendTracked o /\
   expireAt (recalcOfferProgress o) = expireAt o /\
   archivedAt (recalcOfferProgress o) = archivedAt o /\
   creditedToLifetime (recalcOfferProgress o) = creditedToLifetime o /\
   createdAt (recalcOfferProgress o) = createdAt o /\
   updatedAt (recalcOfferProgress o) = updatedAt o) /\
  (is_threshold o = false -> JS.le (rate o) 0 = true ->
   recalcOfferProgress o = o).
Proof.
  destruct (recalcOfferProgress_spread o) as [c Hc]. split; [|split].
  - rewrite Hc. reflexivity.
  - rewrite Hc. repeat split.
  - intros Hty Hrate. unfold recalcOfferProgress. rewrite Hty, Hrate.
    reflexivity.
Qed.

Lemma recalcOfferProgress_frame_witness :
  recalcOfferProgress rateless_offer = rateless_offer /\
  status (recalcOfferProgress (spend125_get25 125 maxed)) = maxed.
Proof.
  split.
  - apply (recalcOfferProgress_frame rateless_offer); reflexivity.
  - destruct (recalcOfferProgress_frame (spend125_get25 125 maxed))
      as (_ & (_ & _ & _ & _ & _ & H & _) & _).
    exact H.
Defined.

(** C7, as stated, fails: with a negative [totalSpendTracked] the
    progress of a threshold offer is negative, here [-10 / 125 = -0.08];
    and a [totalSpendTracked] that is not a number gives a [percent] that
    is not a number. *)
Lemma percent_below_zero :
  percent (computeOfferStats (spend125_get25 (-10) active)) = (-0.08)%float /\
  JS.le 0 (percent (computeOfferStats (spend125_get25 (-10) active))) = false /\
  JS.le 0 (percent (computeOfferStats (spend125_get25 nan active))) = false.
Proof. repeat split. Qed.

(** C7 (amended): for every offer, [percent] is never above 1; and for
    every offer whose [totalSpendTracked], [rate], [cashbackCap] and
    [spendThreshold] are finite numbers and whose [totalSpendTracked] is
    not negative, [percent] lies in the closed interval from 0 to 1. *)
Theorem percent_bounds o :
  JS.gt (percent (computeOfferStats o)) 1 = false /\
  (is_finite (totalSpendTracked o) = true ->
   JS.le 0 (totalSpendTracked o) = true ->
   is_finite (rate o) = true ->
   is_finite (cashbackCap o) = true ->
   is_finite (spendThreshold o ?? 0%float) = true ->
   JS.le 0 (percent (computeOfferStats o)) = true /\
   JS.le (percent (computeOfferStats o)) 1 = true).
Proof.
  unfold computeOfferStats. split.
  - destruct (is_threshold o).
    + destruct (JS.le _ 0); [reflexivity | apply Math_min_1_not_above].
    + destruct (JS.le (rate o) 0); [reflexivity|]. cbn [percent].
      destruct (JS.gt (cashbackCap o) 0);
        [apply Math_min_1_not_above | reflexivity].
  - intros Hfs Hs Hfr Hfc Hft.
    destruct (is_threshold o).
    + destruct (JS.le _ 0) eqn:Hthr; [split; reflexivity|]. cbn [percent].
      apply Math_min_1_unit, div_nonneg; assumption.
    + destruct (JS.le (rate o) 0) eqn:Hrate; [split; reflexivity|].
      cbn [percent].
      destruct (JS.gt (cashbackCap o) 0) eqn:Hcap; [|split; reflexivity].
      pose proof (gt_not_le _ _ Hcap) as Hcap'.
      pose proof (ltb_leb _ _ Hcap) as Hcap0.
      pose proof (div_nonneg _ _ Hfc Hcap0 Hfr Hrate) as HspendCap.
      destruct (Math_min_finite_nonneg _ _ Hs HspendCap (or_introl Hfs))
        as [Hfe He].
      pose proof (mul_nonneg _ _ Hfe He Hfr Hrate) as Hprod.
      destruct (Math_min_finite_nonneg _ _ Hprod Hcap0 (or_intror Hfc))
        as [Hfearned Hearned].
      apply Math_min_1_unit, div_nonneg; assumption.
Qed.

Lemma percent_bounds_witness :
  is_finite (totalSpendTracked (coffee_offer None)) = true /\
  JS.le 0 (totalSpendTracked (coffee_offer None)) = true /\
  is_finite (rate (coffee_offer None)) = true /\
  is_finite (cashbackCap (coffee_offer None)) = true /\
  is_finite (spendThreshold (coffee_offer None) ?? 0%float) = true /\
  JS.le 0 (percent (computeOfferStats (coffee_offer None))) = true /\
  JS.le (percent (computeOfferStats (coffee_offer None))) 1 = true.
Proof.
  do 5 (split; [reflexivity|]).
  apply (percent_bounds (coffee_offer None)); reflexivity.
Defined.

End OfferMath.

(** ** Status normalization *)

Section Status.

Implicit Types (o : Offer) (now : JS.number).

Lemma isMaxedOut_with_status o s :
  status o <> archived -> s <> archived ->
  isMaxedOut (with_status s o) = isMaxedOut o.
Proof.
  intros Ho Hs. unfold isMaxedOut.
  rewrite !bool_decide_false by assumption. reflexivity.
Qed.

Lemma computeStatus_archived now o :
  computeStatus now o = archived <-> status o = archived.
Proof.
  unfold computeStatus. case_bool_decide as Ha.
  - tauto.
  - split; [|tauto].
    destruct (JS.gt _ _); [discriminate|].
    destruct (isMaxedOut o); discriminate.
Qed.

Lemma computeStatus_with_status now o s :
  status o <> archived -> s <> archived ->
  computeStatus now (with_status s o) = computeStatus now o.
Proof.
  intros Ho Hs. unfold computeStatus.
  rewrite (isMaxedOut_with_status o s Ho Hs).
  rewrite !bool_decide_false by assumption. reflexivity.
Qed.

Lemma normalizeOffer_status now o :
  status (normalizeOffer now o) = computeStatus now o.
Proof.
  unfold normalizeOffer.
  destruct (decide (status o = archived)) as [Ha | Ha].
  - rewrite (proj2 (computeStatus_archived now o) Ha), Ha.
    rewrite bool_decide_false by tauto. exact Ha.
  - rewrite (bool_decide_true (status o <> archived)) by exact Ha.
    rewrite andb_true_r. case_bool_decide as Hd.
    + reflexivity.
    + symmetry. exact Hd.
Qed.

Lemma normalizeOffer_fixed now o :
  status o = computeStatus now o -> normalizeOffer now o = o.
Proof.
  intros Hs. unfold normalizeOffer.
  rewrite bool_decide_false by (intros Hne; apply Hne; symmetry; exact Hs).
  reflexivity.
Qed.

Lemma computeStatus_normalizeOffer now o :
  computeStatus now (normalizeOffer now o) = computeStatus now o.
Proof.
  unfold normalizeOffer.
  destruct (bool_decide (computeStatus now o <> status o)
            && bool_decide (status o <> archived)) eqn:Hb; [|reflexivity].
  apply andb_prop in Hb as [_ Hna]. apply bool_decide_eq_true in Hna.
  apply computeStatus_with_status; [exact Hna|].
  intros Hc. apply Hna. apply (computeStatus_archived now o). exact Hc.
Qed.

(** C2: [normalizeOffer] is idempotent at a fixed current time,
    [normalizeOffer (normalizeOffer o) = normalizeOffer o], and it returns
    its input unchanged when the stored status already is the computed
    one. *)
Theorem normalizeOffer_idempotent now o :
  normalizeOffer now (normalizeOffer now o) = normalizeOffer now o /\
  (status o = computeStatus now o -> normalizeOffer now o = o).
Proof.
  split; [|apply normalizeOffer_fixed].
  apply normalizeOffer_fixed.
  rewrite computeStatus_normalizeOffer. apply normalizeOffer_status.
Qed.

(** C3: [computeStatus] follows the precedence archived, expired, maxed,
    active.  A stored [archived] status is returned whatever the other
    properties are; otherwise the result is [expired] exactly when
    [now > expireAt], also for an offer that is maxed out; [maxed] exactly
    when it is not expired and [isMaxedOut] holds; and [active] exactly
    when neither holds. *)
Theorem computeStatus_precedence now o :
  (status o = archived -> computeStatus now o = archived) /\
  (status o <> archived ->
     (computeStatus now o = expired <-> JS.gt now (expireAt o) = true) /\
     (JS.gt now (expireAt o) = true -> isMaxedOut o = true ->
        computeStatus now o = expired) /\
     (computeStatus now o = maxed <->
        JS.gt now (expireAt o) = false /\ isMaxedOut o = true) /\
     (computeStatus now o = active <->
        JS.gt now (expireAt o) = false /\ isMaxedOut o = false)).
Proof.
  split.
  - apply computeStatus_archived.
  - intros Ha. unfold computeStatus. rewrite bool_decide_false by exact Ha.
    destruct (JS.gt now (expireAt o)), (isMaxedOut o);
      repeat split; intros; try tauto; try discriminate;
      try (destruct_and?; discriminate).
Qed.

End Status.

(** ** Scenarios

    The embedding run on the scenarios of the specification. *)

Section Scenarios.

(** 5% up to 50 with 1200 spent: the spend cap is 1000, the offer has
    earned its cap and is maxed out. *)
Example percentage_capped :
  let o := recalcOfferProgress
             (mkOffer "o-5" "Hotel" "card-1" (Some percentage) 0.05%float
                50%float None None 0%float 1200%float 1767225599000%float
                Travel None active None None 0%float 0%float) in
  computeOfferStats o = mkOfferStats 50 0 0 1 /\ isMaxedOut o = true.
Proof. split; reflexivity. Qed.

(** An active offer past its expiry normalizes to expired, also when it
    is maxed out. *)
Example expired_yesterday :
  status (normalizeOffer 1767312000000%float (spend125_get25 125 active))
    = expired.
Proof. reflexivity. Qed.

(** Rounding to cents works on the binary value of the number. *)
Example toFixed2_values :
  Number_toFixed2 0.125%float = 0.13%float /\
  Number_toFixed2 1.005%float = 1%float /\
  Number_toFixed2 (-0.125)%float = (-0.13)%float /\
  Number_toFixed2 1234.5678%float = 1234.57%float.
Proof. repeat split. Qed.

(** A record of version 1 through both upgrades. *)
Example upgrade_legacy_record :
  upgrade_v3_offer
    (upgrade_v2_offer
       (mkStoredOffer "o-6" (Value 0.05%float) (Value 50%float)
          Absent Absent Absent Absent Absent Absent))
  = mkStoredOffer "o-6" (Value 0.05%float) (Value 50%float)
      (Value active) (Value false) Undefined
      (Value percentage) (Value 50%float) (Value 1000%float).
Proof. reflexivity. Qed.

End Scenarios.

(** ** Lifecycle actions *)

Section Lifecycle.

Implicit Types (o : Offer) (w : World) (offerId : string).

(** The first archive of an offer that is not credited yet. *)
Lemma archiveOffer_credits offerId o w :
  indexedDB_defined w = true ->
  well_keyed (tables w) ->
  offers (tables w) !! offerId = Some o ->
  not_credited o = true ->
  exists w1 s1 o1,
    archiveOffer offerId w = (Returned tt, w1) /\
    indexedDB_defined w1 = true /\
    stats (tables w1) !! STATS_KEY = Some s1 /\
    lifetimeCashbackEarned s1 =
      Number_toFixed2
        (prior_lifetime (tables w) + cashbackEarned (recalcOfferProgress o))
    /\
    offers (tables w1) !! offerId = Some o1 /\
    status o1 = archived /\
    creditedToLifetime o1 = Some true /\
    cashbackEarned o1 = cashbackEarned (recalcOfferProgress o).
Proof.
  intros Hdb [Hko Hks] Hget Hnc.
  pose proof (Hko _ _ Hget) as Hid.
  destruct (recalcOfferProgress_spread o) as [c Hc].
  unfold archiveOffer, getDb, transaction, offers_get, mbind, IO_bind.
  rewrite Hdb. cbn. rewrite Hget. cbn. rewrite Hc. cbn.
  assert (Hnc' : forall t u,
    not_credited (with_updatedAt u (with_archivedAt t
      (with_status archived (with_cashbackEarned c o)))) = true)
    by (intros; exact Hnc).
  unfold prior_lifetime.
  destruct (archivedAt o) as [t0|]; cbn; rewrite Hnc'; cbn;
    unfold getOrCreateStats, stats_get, mbind, IO_bind; cbn;
    destruct (stats (tables w) !! STATS_KEY) as [s|] eqn:Hs; cbn;
    try rewrite (Hks _ _ Hs);
    (eexists _, _, _; split; [reflexivity|]; cbn; rewrite Hid;
     split; [exact Hdb|]; split; [apply lookup_insert_eq|];
     split; [reflexivity|]; split; [apply lookup_insert_eq|];
     repeat split).
  all: try (rewrite insert_insert_eq; apply lookup_insert_eq).
Qed.

(** An archive of an offer that is credited already leaves the [stats]
    table alone. *)
Lemma archiveOffer_credited offerId o w :
  indexedDB_defined w = true ->
  offers (tables w) !! offerId = Some o ->
  creditedToLifetime o = Some true ->
  exists w1,
    archiveOffer offerId w = (Returned tt, w1) /\
    stats (tables w1) = stats (tables w).
Proof.
  intros Hdb Hget Hcr.
  destruct (recalcOfferProgress_spread o) as [c Hc].
  unfold archiveOffer, getDb, transaction, offers_get, mbind, IO_bind.
  rewrite Hdb. cbn. rewrite Hget. cbn. rewrite Hc. cbn.
  unfold not_credited. cbn. rewrite Hcr.
  destruct (archivedAt o) as [t0|]; cbn;
    (eexists; split; [reflexivity|]; reflexivity).
Qed.

Lemma coffee_world_well_keyed credited :
  well_keyed (tables (coffee_world credited)).
Proof.
  split; intros k x Hx; cbn in Hx;
    apply lookup_singleton_Some in Hx as [<- <-]; reflexivity.
Qed.

(** C4, as stated, fails.  With a lifetime total of 12, archiving the 5%
    offer after a purchase of 10.05 finalizes [cashbackEarned] at
    [10.05 * 0.05] and credits 12.5, the sum rounded to cents, not the
    sum; and when the offer is credited already, the first of the two
    calls credits nothing. *)
Lemma archiveOffer_credit_not_the_sum :
  (let w1 := (archiveOffer "o-4" (coffee_world None)).2 in
   cashbackEarned <$> offers (tables w1) !! "o-4"
     = Some (10.05 * 0.05)%float /\
   lifetimeCashbackEarned <$> stats (tables w1) !! "app" = Some 12.5%float /\
   (12 + 10.05 * 0.05)%float <> 12.5%float) /\
  (let w1 := (archiveOffer "o-4" (coffee_world (Some true))).2 in
   cashbackEarned <$> offers (tables w1) !! "o-4"
     = Some (10.05 * 0.05)%float /\
   lifetimeCashbackEarned <$> stats (tables w1) !! "app" = Some 12%float).
Proof.
  split; cbv zeta; repeat split; try (vm_compute; reflexivity).
  intros H. numbers_differ H.
Qed.

(** C4 (amended): calling [archiveOffer] twice on the same existing offer
    that is not credited yet ([creditedToLifetime] false or missing)
    credits the singleton AppStats exactly once.  The first call returns
    and sets [lifetimeCashbackEarned] to the previous total (0 when there
    was no stats record) plus the offer's final [cashbackEarned], rounded
    to cents by [toFixed(2)], and stores the offer as archived with
    [creditedToLifetime] set and that final [cashbackEarned]; the second
    call returns and leaves the stats table unchanged. *)
Theorem archiveOffer_twice_credits_once offerId o w :
  indexedDB_defined w = true ->
  well_keyed (tables w) ->
  offers (tables w) !! offerId = Some o ->
  not_credited o = true ->
  exists w1 w2 s1 o1,
    archiveOffer offerId w = (Returned tt, w1) /\
    archiveOffer offerId w1 = (Returned tt, w2) /\
    stats (tables w1) !! STATS_KEY = Some s1 /\
    lifetimeCashbackEarned s1 =
      Number_toFixed2
        (prior_lifetime (tables w) + cashbackEarned (recalcOfferProgress o))
    /\
    offers (tables w1) !! offerId = Some o1 /\
    status o1 = archived /\
    creditedToLifetime o1 = Some true /\
    cashbackEarned o1 = cashbackEarned (recalcOfferProgress o) /\
    stats (tables w2) = stats (tables w1).
Proof.
  intros Hdb Hkeys Hget Hnc.
  destruct (archiveOffer_credits offerId o w Hdb Hkeys Hget Hnc)
    as (w1 & s1 & o1 & Hrun & Hdb1 & Hs1 & Hl1 & Ho1 & Hst & Hcr & Hce).
  destruct (archiveOffer_credited offerId o1 w1 Hdb1 Ho1 Hcr)
    as (w2 & Hrun2 & Hsame).
  exists w1, w2, s1, o1. repeat split; assumption.
Qed.

Lemma archiveOffer_twice_credits_once_witness :
  indexedDB_defined (coffee_world None) = true /\
  well_keyed (tables (coffee_world None)) /\
  offers (tables (coffee_world None)) !! "o-4" = Some (coffee_offer None) /\
  not_credited (coffee_offer None) = true /\
  exists w1 w2 s1 o1,
    archiveOffer "o-4" (coffee_world None) = (Returned tt, w1) /\
    archiveOffer "o-4" w1 = (Returned tt, w2) /\
    stats (tables w1) !! STATS_KEY = Some s1 /\
    lifetimeCashbackEarned s1 =
      Number_toFixed2
        (prior_lifetime (tables (coffee_world None))
         + cashbackEarned (recalcOfferProgress (coffee_offer None)))
    /\
    offers (tables w1) !! "o-4" = Some o1 /\
    status o1 = archived /\
    creditedToLifetime o1 = Some true /\
    cashbackEarned o1 = cashbackEarned (recalcOfferProgress (coffee_offer None)) /\
    stats (tables w2) = stats (tables w1).
Proof.
  split; [reflexivity|].
  split; [apply coffee_world_well_keyed|].
  split; [reflexivity|].
  split; [reflexivity|].
  apply (archiveOffer_twice_credits_once "o-4" (coffee_offer None)
           (coffee_world None)).
  - reflexivity.
  - apply coffee_world_well_keyed.
  - reflexivity.
  - reflexivity.
Defined.

(** C9: on a store that holds no offer under [offerId], [archiveOffer]
    returns without throwing and leaves the whole world as it was: no
    table is written, no stats record is created, the clock is not
    read. *)
Theorem archiveOffer_not_found offerId w :
  indexedDB_defined w = true ->
  offers (tables w) !! offerId = None ->
  archiveOffer offerId w = (Returned tt, w).
Proof.
  intros Hdb Hnone.
  unfold archiveOffer, getDb, transaction, offers_get, mbind, IO_bind.
  rewrite Hdb. cbn. rewrite Hnone. reflexivity.
Qed.

Lemma archiveOffer_not_found_witness :
  indexedDB_defined (coffee_world None) = true /\
  offers (tables (coffee_world None)) !! "o-9" = None /\
  archiveOffer "o-9" (coffee_world None) = (Returned tt, coffee_world None).
Proof.
  split; [reflexivity|]. split; [reflexivity|].
  apply (archiveOffer_not_found "o-9" (coffee_world None)); reflexivity.
Defined.

End Lifecycle.

(** ** Schema upgrades *)

Section Upgrades.

Implicit Types (r : StoredOffer) (tx : UpgradeStore).

Lemma upgrade_v2_offer_idempotent r :
  upgrade_v2_offer (upgrade_v2_offer r) = upgrade_v2_offer r.
Proof.
  destruct r as [k rt cap st cr ar ty am th].
  destruct st, cr, ar; reflexivity.
Qed.

Lemma upgrade_v3_offer_idempotent r :
  upgrade_v3_offer (upgrade_v3_offer r) = upgrade_v3_offer r.
Proof.
  destruct r as [k rt cap st cr ar ty am th].
  unfold upgrade_v3_offer, JS.gt. cbn.
  destruct (PrimFloat.ltb 0 (to_number rt)) eqn:Hrate;
    destruct ty as [| | |[|]], am, th; cbn;
    rewrite ?Hrate; reflexivity.
Qed.

Lemma upgrade_v2_idempotent now now' tx :
  upgrade_v2 now' (upgrade_v2 now tx) = upgrade_v2 now tx.
Proof.
  unfold upgrade_v2. cbn. f_equal.
  - rewrite <- map_fmap_compose. apply map_fmap_ext.
    intros k r _. apply upgrade_v2_offer_idempotent.
  - destruct (up_stats tx !! "app") as [s|] eqn:Hs.
    + rewrite Hs. reflexivity.
    + rewrite lookup_insert_eq. reflexivity.
Qed.

Lemma upgrade_v3_idempotent tx :
  upgrade_v3 (upgrade_v3 tx) = upgrade_v3 tx.
Proof.
  unfold upgrade_v3. cbn. f_equal.
  rewrite <- map_fmap_compose. apply map_fmap_ext.
  intros k r _. apply upgrade_v3_offer_idempotent.
Qed.

(** C8: each upgrade is idempotent, on a record and on the store, and a
    backfill leaves a populated property alone: [status],
    [creditedToLifetime], [rewardType], [rewardAmount] and
    [spendThreshold] that hold a value keep it, [archivedAt] that is
    present (whatever it holds) is kept, and the upgrade to version 2
    leaves the stats table alone when it holds the ["app"] record. *)
Theorem upgrades_keep_populated r tx now now' :
  (upgrade_v2_offer (upgrade_v2_offer r) = upgrade_v2_offer r /\
   upgrade_v3_offer (upgrade_v3_offer r) = upgrade_v3_offer r /\
   upgrade_v2 now' (upgrade_v2 now tx) = upgrade_v2 now tx /\
   upgrade_v3 (upgrade_v3 tx) = upgrade_v3 tx) /\
  ((forall s, so_status r = Value s ->
      so_status (upgrade_v2_offer r) = Value s) /\
   (forall b, so_creditedToLifetime r = Value b ->
      so_creditedToLifetime (upgrade_v2_offer r) = Value b) /\
   (has_key (so_archivedAt r) = true ->
      so_archivedAt (upgrade_v2_offer r) = so_archivedAt r) /\
   (forall t, so_rewardType r = Value t ->
      so_rewardType (upgrade_v3_offer r) = Value t) /\
   (forall a, so_rewardAmount r = Value a ->
      so_rewardAmount (upgrade_v3_offer r) = Value a) /\
   (forall a, so_spendThreshold r = Value a ->
      so_spendThreshold (upgrade_v3_offer r) = Value a)) /\
  (forall existing, up_stats tx !! "app" = Some existing ->
     up_stats (upgrade_v2 now tx) = up_stats tx).
Proof.
  split; [|split].
  - split; [apply upgrade_v2_offer_idempotent|].
    split; [apply upgrade_v3_offer_idempotent|].
    split; [apply upgrade_v2_idempotent | apply upgrade_v3_idempotent].
  - destruct r as [k rt cap st cr ar ty am th]. cbn.
    repeat split.
    + intros s ->. reflexivity.
    + intros b ->. reflexivity.
    + destruct ar; [discriminate | reflexivity ..].
    + intros t ->. unfold upgrade_v3_offer. cbn.
      destruct t; reflexivity.
    + intros a ->. unfold upgrade_v3_offer. cbn.
      destruct ty as [| | |[|]]; reflexivity.
    + intros a ->. unfold upgrade_v3_offer. cbn.
      destruct ty as [| | |[|]]; reflexivity.
  - intros existing Hs. unfold upgrade_v2. cbn. rewrite Hs. reflexivity.
Qed.

End Upgrades.

(** * Further properties *)

(** ** More binary64 arithmetic *)

Section MoreBinary64.

Implicit Types (x y : JS.number) (f g : spec_float) (p q : positive).

Lemma ltb_irrefl x : PrimFloat.ltb x x = false.
Proof.
  destruct (PrimFloat.ltb x x) eqn:H; [|reflexivity].
  pose proof (ltb_asym x x H) as H'. congruence.
Qed.

Lemma ltb_nan_r x : PrimFloat.ltb x nan = false.
Proof.
  rewrite FloatAxioms.ltb_spec. change (Prim2SF nan) with S754_nan.
  unfold SFltb. destruct (Prim2SF x); reflexivity.
Qed.

Lemma ltb_nan_l x : PrimFloat.ltb nan x = false.
Proof.
  rewrite FloatAxioms.ltb_spec. change (Prim2SF nan) with S754_nan.
  reflexivity.
Qed.

(** [Math.min(x, y)] is never above [y], nor above [x]. *)
Lemma Math_min_not_above_r x y : JS.gt (JS.Math_min x y) y = false.
Proof.
  unfold JS.gt, JS.Math_min.
  destruct (is_nan x || is_nan y); [apply ltb_nan_r|].
  destruct (PrimFloat.ltb x y) eqn:Hlt; [apply ltb_asym; exact Hlt|].
  destruct (PrimFloat.ltb y x) eqn:Hgt; [apply ltb_irrefl|].
  destruct (get_sign x); [exact Hgt | apply ltb_irrefl].
Qed.

(** [Math.max(0, x)] is never below zero. *)
Lemma Math_max_0_not_below x : JS.lt (JS.Math_max 0 x) 0 = false.
Proof.
  unfold JS.lt, JS.Math_max.
  destruct (is_nan 0 || is_nan x); [reflexivity|].
  destruct (PrimFloat.ltb 0 x) eqn:Hlt; [apply ltb_asym; exact Hlt|].
  destruct (PrimFloat.ltb x 0) eqn:Hgt; reflexivity.
Qed.

Lemma lt_0_spec x : JS.lt x 0 = negb (sf_not_below (Prim2SF x)).
Proof.
  unfold JS.lt. rewrite FloatAxioms.ltb_spec.
  change (Prim2SF 0) with (S754_zero false). unfold SFltb.
  destruct (Prim2SF x) as [s|s| |s m e]; try destruct s; reflexivity.
Qed.

Lemma not_le_0_spec x :
  JS.le x 0 = false -> sf_pos_or_nan (Prim2SF x) = true.
Proof.
  unfold JS.le. rewrite FloatAxioms.leb_spec.
  change (Prim2SF 0) with (S754_zero false). unfold SFleb.
  destruct (Prim2SF x) as [s|s| |s m e]; try destruct s; cbn; congruence.
Qed.

Lemma sf_nonneg_not_below f : sf_nonneg f = true -> sf_not_below f = true.
Proof. destruct f; cbn; congruence. Qed.

Lemma SFdiv_not_below f g :
  sf_pos_or_nan f = true -> sf_pos_or_nan g = true ->
  sf_not_below (SFdiv prec emax f g) = true.
Proof.
  destruct f as [s1|s1| |[|] m1 e1], g as [s2|s2| |[|] m2 e2];
    try destruct s1; try destruct s2;
    try discriminate; try reflexivity; intros _ _.
  apply sf_nonneg_not_below, SFdiv_nonneg; reflexivity.
Qed.

(** A quotient of two numbers above zero is not below zero (it may be
    [NaN]). *)
Lemma div_not_below x y :
  sf_pos_or_nan (Prim2SF x) = true -> JS.le y 0 = false ->
  JS.lt (x / y) 0 = false.
Proof.
  intros Hx Hy%not_le_0_spec.
  rewrite lt_0_spec, FloatAxioms.div_spec. unfold SF64div.
  rewrite (SFdiv_not_below _ _ Hx Hy). reflexivity.
Qed.

Lemma is_nan_true x : is_nan x = true -> x = nan.
Proof.
  intros H. apply Prim2SF_inj. change (Prim2SF nan) with S754_nan.
  destruct (Prim2SF x) eqn:Hx; try reflexivity;
    assert (Hn : is_nan x = false)
      by (apply is_nan_spec; rewrite Hx; discriminate);
    congruence.
Qed.

Lemma Math_min_same x : JS.Math_min x x = x.
Proof.
  unfold JS.Math_min. destruct (is_nan x) eqn:Hn; cbn [orb].
  - symmetry. apply is_nan_true, Hn.
  - rewrite ltb_irrefl. destruct (get_sign x); reflexivity.
Qed.

Lemma gt_0_spec x : JS.gt x 0 = true -> sf_pos_or_nan (Prim2SF x) = true.
Proof.
  unfold JS.gt. rewrite FloatAxioms.ltb_spec.
  change (Prim2SF 0) with (S754_zero false). unfold SFltb.
  destruct (Prim2SF x) as [s|s| |s m e]; try destruct s; cbn; congruence.
Qed.

Lemma above_epsilon_spec x :
  JS.lt x 0 = false -> JS.le x EPSILON = false ->
  sf_pos_or_nan (Prim2SF x) = true.
Proof.
  assert (He : Prim2SF EPSILON = S754_finite false 5764607523034235 (-59))
    by (vm_compute; reflexivity).
  rewrite lt_0_spec. unfold JS.le. rewrite FloatAxioms.leb_spec, He.
  destruct (Prim2SF x) as [s|[|]| |[|] m e]; intros H1 H2;
    try reflexivity; try discriminate H1.
  destruct s; discriminate H2.
Qed.

(** *** Subtraction *)

Lemma binary_round_aux_opp (s : bool) (m e : Z) (l : location) :
  binary_round_aux prec emax (negb s) m e l
  = SFopp (binary_round_aux prec emax s m e l).
Proof.
  unfold binary_round_aux.
  destruct (shr_fexp prec emax m e l) as [mrs1 e1].
  destruct (shr_fexp prec emax _ e1 loc_Exact) as [mrs2 e2].
  destruct (shr_m mrs2); [reflexivity| |reflexivity].
  destruct (e2 <=? emax - prec)%Z; reflexivity.
Qed.

Lemma binary_round_opp (s : bool) (p : positive) (e : Z) :
  binary_round prec emax (negb s) p e = SFopp (binary_round prec emax s p e).
Proof.
  unfold binary_round. destruct (shl_align p e _) as [mz ez].
  apply binary_round_aux_opp.
Qed.

Lemma binary_normalize_opp (m e : Z) :
  m <> 0%Z ->
  binary_normalize prec emax (- m) e false
  = SFopp (binary_normalize prec emax m e false).
Proof.
  destruct m as [|p|p]; [congruence| |]; intros _.
  - exact (binary_round_opp false p e).
  - change (binary_round prec emax false p e
            = SFopp (binary_round prec emax (negb false) p e)).
    rewrite binary_round_opp.
    destruct (binary_round prec emax false p e) as [s|s| |s m' e'];
      cbn; rewrite ?negb_involutive; reflexivity.
Qed.

Lemma sf_lt0_opp f : sf_lt0 (SFopp f) = sf_gt0 f.
Proof. destruct f as [s|s| |s m e]; try destruct s; reflexivity. Qed.

Lemma SFsub_swap f g :
  sf_lt0 (SFsub prec emax f g) = sf_gt0 (SFsub prec emax g f).
Proof.
  destruct f as [s1|s1| |s1 m1 e1], g as [s2|s2| |s2 m2 e2];
    try (destruct s1, s2; reflexivity);
    try (destruct s1; reflexivity); try (destruct s2; reflexivity);
    try reflexivity.
  cbn [SFsub]. rewrite (Z.min_comm e2 e1).
  set (ez := Z.min e1 e2).
  set (A := cond_Zopp s1 (Z.pos (shl_align m1 e1 ez).1)).
  set (B := cond_Zopp s2 (Z.pos (shl_align m2 e2 ez).1)).
  destruct (Z.eq_dec (B - A)%Z 0%Z) as [H0 | Hne].
  - replace (A - B)%Z with 0%Z by lia. rewrite H0. reflexivity.
  - replace (A - B)%Z with (- (B - A))%Z by lia.
    rewrite (binary_normalize_opp _ ez Hne). apply sf_lt0_opp.
Qed.

Lemma sub_swap x y : JS.lt (x - y) 0 = JS.gt (y - x) 0.
Proof.
  unfold JS.lt, JS.gt. rewrite !FloatAxioms.ltb_spec, !FloatAxioms.sub_spec.
  change (Prim2SF 0) with (S754_zero false). apply SFsub_swap.
Qed.

Lemma number_strict_ne_sym x y : number_strict_ne x y = number_strict_ne y x.
Proof.
  unfold number_strict_ne. rewrite !FloatAxioms.eqb_spec. unfold SFeqb.
  rewrite (SFcompare_antisym (Prim2SF x) (Prim2SF y)).
  destruct (SFcompare (Prim2SF x) (Prim2SF y)) as [[| |]|]; reflexivity.
Qed.

Lemma sub_diag x : is_finite x = true -> (x - x)%float = 0%float.
Proof.
  intros Hf%is_finite_spec. apply Prim2SF_inj.
  rewrite FloatAxioms.sub_spec. change (Prim2SF 0) with (S754_zero false).
  destruct (Prim2SF x) as [s|s| |s m e]; try contradiction.
  - destruct s; reflexivity.
  - cbn [SF64sub SFsub]. unfold SF64sub. cbn [SFsub].
    rewrite Z.sub_diag. reflexivity.
Qed.

Lemma lt_strict_ne x y : JS.lt x y = true -> number_strict_ne x y = true.
Proof.
  unfold JS.lt, number_strict_ne.
  rewrite FloatAxioms.ltb_spec, FloatAxioms.eqb_spec. unfold SFltb, SFeqb.
  destruct (SFcompare (Prim2SF x) (Prim2SF y)) as [[| |]|]; cbn; congruence.
Qed.

(** *** Rounding a magnitude does not reach zero *)

Lemma digits2_pos_bounds p :
  (2 ^ (Z.pos (digits2_pos p) - 1) <= Z.pos p < 2 ^ Z.pos (digits2_pos p))%Z.
Proof.
  induction p as [p IH|p IH|]; cbn [digits2_pos].
  - rewrite Pos2Z.inj_succ, (Pos2Z.inj_xI p).
    replace (Z.succ (Z.pos (digits2_pos p)) - 1)%Z
      with (Z.succ (Z.pos (digits2_pos p) - 1)) by lia.
    rewrite !Z.pow_succ_r by lia. lia.
  - rewrite Pos2Z.inj_succ, (Pos2Z.inj_xO p).
    replace (Z.succ (Z.pos (digits2_pos p)) - 1)%Z
      with (Z.succ (Z.pos (digits2_pos p) - 1)) by lia.
    rewrite !Z.pow_succ_r by lia. lia.
  - cbn. lia.
Qed.

Lemma iter_xO_spec p (d : positive) :
  Z.pos (Pos.iter xO p d) = (Z.pos p * 2 ^ Z.pos d)%Z.
Proof.
  induction d as [|d IH] using Pos.peano_ind.
  - cbn. lia.
  - rewrite Pos.iter_succ, (Pos2Z.inj_xO (Pos.iter xO p d)), IH, Pos2Z.inj_succ.
    rewrite Z.pow_succ_r by lia. lia.
Qed.

(** The mantissa that [shl_align] gives at a lower exponent. *)
Lemma shl_align_spec p (e e' : Z) :
  (e' <= e)%Z ->
  Z.pos (shl_align p e e').1 = (Z.pos p * 2 ^ (e - e'))%Z.
Proof.
  intros He. unfold shl_align.
  destruct (e' - e)%Z as [|d|d] eqn:Hd; cbn [fst].
  - replace (e - e')%Z with 0%Z by lia. lia.
  - lia.
  - rewrite iter_xO_spec. f_equal. f_equal. lia.
Qed.

(** What a valid finite number says of its mantissa and exponent. *)
Lemma bounded_spec p (e : Z) :
  bounded prec emax p e = true ->
  (Z.pos (digits2_pos p) <= 53 /\ -1074 <= e /\
   (-1074 < e -> Z.pos (digits2_pos p) = 53))%Z.
Proof.
  unfold bounded, canonical_mantissa, fexp, emin, prec, emax.
  intros [H _]%andb_true_iff. apply Z.eqb_eq in H. lia.
Qed.

(** *** Rounding a magnitude does not reach zero *)

Lemma shr_1_digits (mrs : shr_record) p :
  shr_m mrs = Z.pos p -> (1 < Z.pos (digits2_pos p))%Z ->
  exists p', shr_m (shr_1 mrs) = Z.pos p' /\
    (Z.pos (digits2_pos p') = Z.pos (digits2_pos p) - 1)%Z.
Proof.
  destruct mrs as [m r s]. cbn [shr_m]. intros -> Hd.
  destruct p as [p|p|]; cbn [digits2_pos] in *;
    [exists p | exists p | lia]; cbn; split; try reflexivity; lia.
Qed.

Lemma iter_shr_1_digits (n : positive) : forall (mrs : shr_record) p,
  shr_m mrs = Z.pos p -> (Z.pos n < Z.pos (digits2_pos p))%Z ->
  exists p', shr_m (SpecFloat.iter_pos shr_1 n mrs) = Z.pos p' /\
    (Z.pos (digits2_pos p') = Z.pos (digits2_pos p) - Z.pos n)%Z.
Proof.
  induction n as [n IH|n IH|]; intros mrs p Hm Hd; cbn [SpecFloat.iter_pos].
  - destruct (shr_1_digits mrs p Hm ltac:(lia)) as (p1 & H1 & D1).
    destruct (IH _ p1 H1 ltac:(lia)) as (p2 & H2 & D2).
    destruct (IH _ p2 H2 ltac:(lia)) as (p3 & H3 & D3).
    exists p3. split; [exact H3 | lia].
  - destruct (IH _ p Hm ltac:(lia)) as (p1 & H1 & D1).
    destruct (IH _ p1 H1 ltac:(lia)) as (p2 & H2 & D2).
    exists p2. split; [exact H2 | lia].
  - destruct (shr_1_digits mrs p Hm ltac:(lia)) as (p1 & H1 & D1).
    exists p1. split; [exact H1 | lia].
Qed.

Lemma shr_fexp_pos p (e : Z) (l : location) :
  (-1074 <= e)%Z ->
  exists (mrs' : shr_record) (e' : Z),
    shr_fexp prec emax (Z.pos p) e l = (mrs', e') /\
    (exists q, shr_m mrs' = Z.pos q) /\ (-1074 <= e')%Z.
Proof.
  intros He. unfold shr_fexp, shr.
  assert (H0 : shr_m (shr_record_of_loc (Z.pos p) l) = Z.pos p)
    by (destruct l as [|[| |]]; reflexivity).
  cbn [Zdigits2].
  destruct (fexp prec emax (Z.pos (digits2_pos p) + e) - e)%Z
    as [|n|n] eqn:Hn.
  - eexists _, _. split; [reflexivity|]. split; [eauto | exact He].
  - assert (Hlt : (Z.pos n < Z.pos (digits2_pos p))%Z).
    { revert Hn. unfold fexp, SpecFloat.emin, prec, emax. lia. }
    destruct (iter_shr_1_digits n _ p H0 Hlt) as (q & Hq & _).
    eexists _, _. split; [reflexivity|]. split; [eauto | lia].
  - eexists _, _. split; [reflexivity|]. split; [eauto | exact He].
Qed.

Lemma binary_round_aux_nonzero (s : bool) p (e : Z) (l : location) :
  (-1074 <= e)%Z ->
  match binary_round_aux prec emax s (Z.pos p) e l with
  | S754_infinity s' | S754_finite s' _ _ => s' = s
  | _ => False
  end.
Proof.
  intros He. unfold binary_round_aux.
  destruct (shr_fexp_pos p e l He) as (mrs1 & e1 & -> & [q1 Hq1] & He1).
  assert (Hr : exists q2,
    round_nearest_even (shr_m mrs1) (loc_of_shr_record mrs1) = Z.pos q2).
  { rewrite Hq1. destruct (loc_of_shr_record mrs1) as [|[| |]];
      cbn [round_nearest_even]; try destruct (Z.even (Z.pos q1));
      try (exists q1; reflexivity); exists (q1 + 1)%positive; reflexivity. }
  destruct Hr as [q2 ->].
  destruct (shr_fexp_pos q2 e1 loc_Exact He1) as (mrs2 & e2 & -> & [q3 ->] & _).
  destruct (e2 <=? emax - prec)%Z; reflexivity.
Qed.

Lemma binary_round_nonzero (s : bool) p (e : Z) :
  (-1074 <= e)%Z ->
  match binary_round prec emax s p e with
  | S754_infinity s' | S754_finite s' _ _ => s' = s
  | _ => False
  end.
Proof.
  intros He. unfold binary_round.
  destruct (shl_align p e _) as [mz ez] eqn:Hal.
  apply binary_round_aux_nonzero.
  revert Hal. unfold shl_align, fexp, SpecFloat.emin, prec, emax.
  destruct (_ - e)%Z eqn:Hd; intros [= <- <-]; lia.
Qed.

(** A difference below zero rounds to a number below zero. *)
Lemma binary_normalize_neg (m e : Z) :
  (m < 0)%Z -> (-1074 <= e)%Z ->
  sf_lt0 (binary_normalize prec emax m e false) = true.
Proof.
  intros Hm He. destruct m as [|p|p]; try lia. cbn [binary_normalize].
  pose proof (binary_round_nonzero true p e He) as H.
  destruct (binary_round prec emax true p e) as [s|s| |s m' e'];
    try contradiction; subst; reflexivity.
Qed.

(** *** The order of two valid numbers is the order of their values *)

(** *** The order of two valid numbers is the order of their values *)

Lemma aligned_lt_by_exponent p q (e1 e2 : Z) :
  bounded prec emax p e1 = true -> bounded prec emax q e2 = true ->
  (e1 < e2)%Z ->
  (Z.pos p < Z.pos q * 2 ^ (e2 - e1))%Z.
Proof.
  intros (Hp & E1 & _)%bounded_spec (_ & E2 & Hq)%bounded_spec Hlt.
  specialize (Hq ltac:(lia)).
  pose proof (digits2_pos_bounds p) as Bp.
  pose proof (digits2_pos_bounds q) as Bq. rewrite Hq in Bq.
  assert (H53 : (Z.pos p < 2 ^ 53)%Z).
  { eapply Z.lt_le_trans; [apply Bp|].
    apply Z.pow_le_mono_r; lia. }
  assert (H2 : (2 ^ 1 <= 2 ^ (e2 - e1))%Z) by (apply Z.pow_le_mono_r; lia).
  change (2 ^ (53 - 1))%Z with 4503599627370496%Z in Bq.
  change (2 ^ 53)%Z with 9007199254740992%Z in H53.
  change (2 ^ 1)%Z with 2%Z in H2.
  nia.
Qed.

Lemma SFsub_lt f g :
  valid_binary f = true -> valid_binary g = true ->
  SFcompare f g = Some Lt ->
  sf_lt0 (SFsub prec emax f g) = true.
Proof.
  destruct f as [s1|s1| |s1 m1 e1], g as [s2|s2| |s2 m2 e2];
    try (destruct s1, s2; cbn; congruence);
    try (destruct s1; cbn; congruence);
    try (destruct s2; cbn; congruence);
    try (cbn; congruence).
  cbn [valid_binary]. intros V1 V2 Hc. cbn [SFsub].
  pose proof (bounded_spec m1 e1 V1) as (_ & E1 & _).
  pose proof (bounded_spec m2 e2 V2) as (_ & E2 & _).
  apply binary_normalize_neg; [|lia].
  rewrite !shl_align_spec by lia.
  assert (P1 : (0 < Z.pos m1 * 2 ^ (e1 - Z.min e1 e2))%Z)
    by (apply Z.mul_pos_pos; [lia | apply Z.pow_pos_nonneg; lia]).
  assert (P2 : (0 < Z.pos m2 * 2 ^ (e2 - Z.min e1 e2))%Z)
    by (apply Z.mul_pos_pos; [lia | apply Z.pow_pos_nonneg; lia]).
  cbn [SFcompare] in Hc.
  destruct s1, s2; cbn [cond_Zopp]; try discriminate; try lia.
  - destruct (Z.compare_spec e1 e2) as [Heq | Hlt | Hgt]; try discriminate.
    + subst e2. rewrite Z.min_id, Z.sub_diag in *.
      assert (Hm : (Z.pos m2 < Z.pos m1)%Z).
      { apply Pos2Z.pos_lt_pos, Pos.compare_gt_iff.
        change (PosDef.Pos.compare_cont Eq m1 m2) with (Pos.compare m1 m2) in Hc.
        destruct (Pos.compare m1 m2); cbn in Hc; congruence. }
      lia.
    + rewrite Z.min_r, Z.sub_diag in * by lia.
      pose proof (aligned_lt_by_exponent m2 m1 e2 e1 V2 V1 Hgt). lia.
  - destruct (Z.compare_spec e1 e2) as [Heq | Hlt | Hgt]; try discriminate.
    + subst e2. rewrite Z.min_id, Z.sub_diag in *.
      assert (Hm : (Z.pos m1 < Z.pos m2)%Z).
      { apply Pos2Z.pos_lt_pos, Pos.compare_lt_iff.
        change (PosDef.Pos.compare_cont Eq m1 m2) with (Pos.compare m1 m2) in Hc.
        congruence. }
      lia.
    + rewrite Z.min_l, Z.sub_diag in * by lia.
      pose proof (aligned_lt_by_exponent m1 m2 e1 e2 V1 V2 Hlt). lia.
Qed.

(** Subtracting a larger number gives a number below zero. *)
Lemma sub_lt x y : JS.lt x y = true -> JS.lt (x - y) 0 = true.
Proof.
  unfold JS.lt. rewrite !FloatAxioms.ltb_spec, FloatAxioms.sub_spec.
  change (Prim2SF 0) with (S754_zero false). unfold SFltb at 1.
  intros Hc. apply SFsub_lt; try apply Prim2SF_valid.
  destruct (SFcompare (Prim2SF x) (Prim2SF y)) as [[| |]|]; congruence.
Qed.

Lemma SFsub_le f g :
  valid_binary f = true -> valid_binary g = true ->
  SFleb f g = true ->
  sf_gt0 (SFsub prec emax f g) = false.
Proof.
  intros V1 V2. unfold SFleb.
  destruct (SFcompare f g) as [[| |]|] eqn:Hc; try discriminate; intros _.
  - destruct f as [s1|s1| |s1 m1 e1], g as [s2|s2| |s2 m2 e2];
      try (destruct s1, s2; cbn in *; congruence);
      try (destruct s1; cbn in *; congruence);
      try (destruct s2; cbn in *; congruence);
      try (cbn in *; congruence).
    cbn [SFcompare] in Hc. cbn [SFsub].
    assert (He : e1 = e2).
    { destruct s1, s2; try discriminate;
        destruct (Z.compare_spec e1 e2); congruence. }
    subst e2.
    assert (Hm : m1 = m2 /\ s1 = s2).
    { rewrite Z.compare_refl in Hc.
      change (PosDef.Pos.compare_cont Eq m1 m2) with (Pos.compare m1 m2) in Hc.
      destruct s1, s2; try discriminate; split; try reflexivity;
        apply Pos.compare_eq; destruct (Pos.compare m1 m2);
        cbn in Hc; congruence. }
    destruct Hm as [-> ->]. rewrite Z.sub_diag. reflexivity.
  - pose proof (SFsub_lt f g V1 V2 Hc) as H.
    destruct (SFsub prec emax f g) as [s|s| |s m e]; try destruct s;
      cbn in *; congruence.
Qed.

(** Subtracting a number that is not smaller gives nothing above zero. *)
Lemma sub_le x y : JS.le x y = true -> JS.gt (x - y) 0 = false.
Proof.
  unfold JS.le, JS.gt.
  rewrite FloatAxioms.leb_spec, FloatAxioms.ltb_spec, FloatAxioms.sub_spec.
  change (Prim2SF 0) with (S754_zero false).
  apply SFsub_le; apply Prim2SF_valid.
Qed.

Lemma Math_max_0_of_not_above x :
  JS.gt x 0 = false -> JS.gt (JS.Math_max 0 x) 0 = false.
Proof.
  unfold JS.gt, JS.Math_max. intros Hx.
  destruct (is_nan 0 || is_nan x); [reflexivity|]. rewrite Hx.
  destruct (PrimFloat.ltb x 0); reflexivity.
Qed.

Lemma Math_max_0_of_above x :
  JS.gt x 0 = true -> JS.Math_max 0 x = x.
Proof.
  unfold JS.gt, JS.Math_max. intros Hx.
  assert (Hn : is_nan x = false).
  { apply is_nan_spec. intros Hn. revert Hx.
    rewrite FloatAxioms.ltb_spec, Hn. discriminate. }
  rewrite Hn, Hx. reflexivity.
Qed.

End MoreBinary64.

(** ** More offer math *)

Section MoreOfferMath.

Implicit Types (o a b : Offer) (c : JS.number).

(** Recalculating does not read the stored [cashbackEarned], except to
    keep it for an offer without a rate. *)
Lemma recalcOfferProgress_of_spread o c :
  recalcOfferProgress (with_cashbackEarned c o) =
    if is_threshold o then recalcOfferProgress o
    else if JS.le (rate o) 0 then with_cashbackEarned c o
    else recalcOfferProgress o.
Proof.
  destruct o as [i me ca ty ra cap th am ea sp ex cat no st ar cr cre up].
  unfold recalcOfferProgress, is_threshold, with_cashbackEarned.
  cbn -[JS.le JS.ge JS.Math_min].
  destruct (bool_decide (ty = Some threshold)).
  - destruct (JS.le _ 0); reflexivity.
  - destruct (JS.le ra 0); reflexivity.
Qed.

(** X1: [recalcOfferProgress] is idempotent: recalculating a recalculated
    offer changes nothing. *)
Theorem recalcOfferProgress_idempotent o :
  recalcOfferProgress (recalcOfferProgress o) = recalcOfferProgress o.
Proof.
  destruct (recalcOfferProgress_spread o) as [c Hc].
  rewrite Hc at 1. rewrite recalcOfferProgress_of_spread.
  destruct (is_threshold o) eqn:Hty; [reflexivity|].
  destruct (JS.le (rate o) 0) eqn:Hrate; [|reflexivity].
  symmetry. exact Hc.
Qed.

(** X2: for an offer that is not degenerate (a threshold offer with a
    threshold that is not [<= 0], a percentage offer with a rate that is
    not [<= 0]), [computeOfferStats] does not read the stored
    [cashbackEarned]: any override of it, and [recalcOfferProgress] in
    particular, leaves the projection the same. *)
Theorem computeOfferStats_ignores_cashbackEarned o c :
  degenerate o = false ->
  computeOfferStats (with_cashbackEarned c o) = computeOfferStats o /\
  computeOfferStats (recalcOfferProgress o) = computeOfferStats o.
Proof.
  intros Hd.
  assert (H : forall c', computeOfferStats (with_cashbackEarned c' o)
                         = computeOfferStats o).
  { intros c'. revert Hd. destruct o.
    unfold degenerate, computeOfferStats, is_threshold. cbn.
    destruct (bool_decide _); intros ->; reflexivity. }
  split; [apply H|].
  destruct (recalcOfferProgress_spread o) as [c' ->]. apply H.
Qed.

Lemma computeOfferStats_ignores_cashbackEarned_witness :
  degenerate (coffee_offer None) = false /\
  computeOfferStats (with_cashbackEarned 99 (coffee_offer None))
    = computeOfferStats (coffee_offer None) /\
  computeOfferStats (recalcOfferProgress (coffee_offer None))
    = computeOfferStats (coffee_offer None).
Proof.
  split; [reflexivity|].
  apply (computeOfferStats_ignores_cashbackEarned (coffee_offer None) 99).
  reflexivity.
Defined.

(** X3: what [recalcOfferProgress] stores as [cashbackEarned] is what
    [computeOfferStats] shows as [earned], for a percentage offer with a
    rate that is not [<= 0], and for a threshold offer that has reached
    its threshold, where both are the reward. *)
Theorem recalcOfferProgress_matches_stats o :
  (is_threshold o = false -> JS.le (rate o) 0 = false ->
     cashbackEarned (recalcOfferProgress o) = earned (computeOfferStats o)) /\
  (is_threshold o = true -> JS.le (spendThreshold o ?? 0%float) 0 = false ->
     JS.ge (totalSpendTracked o) (spendThreshold o ?? 0%float) = true ->
     cashbackEarned (recalcOfferProgress o) = reward_of o /\
     earned (computeOfferStats o) = reward_of o).
Proof.
  unfold recalcOfferProgress, computeOfferStats, reward_of. split.
  - intros -> ->. reflexivity.
  - intros -> -> ->. cbn. split; [apply Math_min_same | reflexivity].
Qed.

Lemma recalcOfferProgress_matches_stats_witness :
  cashbackEarned (recalcOfferProgress (coffee_offer None))
    = earned (computeOfferStats (coffee_offer None)) /\
  cashbackEarned (recalcOfferProgress (spend125_get25 125 active)) = 25%float.
Proof.
  split.
  - destruct (recalcOfferProgress_matches_stats (coffee_offer None))
      as [H _].
    exact (H eq_refl eq_refl).
  - destruct (recalcOfferProgress_matches_stats (spend125_get25 125 active))
      as [_ H].
    destruct (H eq_refl eq_refl eq_refl) as [H1 _]. exact H1.
Defined.

(** X4: for an offer that is not degenerate, the [cashbackEarned] that
    [recalcOfferProgress] stores is never above the reward of a threshold
    offer or the cap of a percentage offer, and the [earned] that
    [computeOfferStats] shows for a percentage offer is never above the
    cap. *)
Theorem earned_never_above_cap o :
  degenerate o = false ->
  JS.gt (cashbackEarned (recalcOfferProgress o))
        (if is_threshold o then reward_of o else cashbackCap o) = false /\
  (is_threshold o = false ->
   JS.gt (earned (computeOfferStats o)) (cashbackCap o) = false).
Proof.
  unfold degenerate, recalcOfferProgress, computeOfferStats, reward_of.
  destruct (is_threshold o); intros ->; cbn.
  - split; [apply Math_min_not_above_r | discriminate].
  - split; [|intros _]; apply Math_min_not_above_r.
Qed.

Lemma earned_never_above_cap_witness :
  degenerate (coffee_offer None) = false /\
  JS.gt (cashbackEarned (recalcOfferProgress (coffee_offer None))) 50 = false.
Proof.
  split; [reflexivity|].
  destruct (earned_never_above_cap (coffee_offer None) eq_refl) as [H _].
  exact H.
Defined.

(** X5: for every offer, [remainCashback] and [remainSpendToCap] of
    [computeOfferStats] are never below zero. *)
Theorem remainders_never_below_zero o :
  JS.lt (remainCashback (computeOfferStats o)) 0 = false /\
  JS.lt (remainSpendToCap (computeOfferStats o)) 0 = false.
Proof.
  unfold computeOfferStats.
  destruct (is_threshold o).
  - destruct (JS.le _ 0); cbn [remainCashback remainSpendToCap];
      split; try reflexivity; apply Math_max_0_not_below.
  - destruct (JS.le (rate o) 0) eqn:Hrate;
      cbn [remainCashback remainSpendToCap]; [split; reflexivity|].
    split; [apply Math_max_0_not_below|].
    destruct (JS.gt _ 0) eqn:Hpos; [|reflexivity].
    apply div_not_below; [apply gt_0_spec, Hpos | exact Hrate].
Qed.

(** X6: for every offer, [getRemainingSpendToCap] is never below zero. *)
Theorem getRemainingSpendToCap_never_below_zero o :
  JS.lt (getRemainingSpendToCap o) 0 = false.
Proof.
  unfold getRemainingSpendToCap.
  destruct (is_threshold o).
  - destruct (JS.le _ 0); [reflexivity | apply Math_max_0_not_below].
  - destruct (JS.le (rate o) 0) eqn:Hrate; [reflexivity|].
    destruct (JS.le _ EPSILON) eqn:Heps; [reflexivity|].
    apply div_not_below; [|exact Hrate].
    apply above_epsilon_spec; [apply Math_max_0_not_below | exact Heps].
Qed.

(** X7: for every threshold offer, [getRemainingSpendToCap] is the
    [remainSpendToCap] that [computeOfferStats] shows. *)
Theorem getRemainingSpendToCap_threshold o :
  is_threshold o = true ->
  getRemainingSpendToCap o = remainSpendToCap (computeOfferStats o).
Proof.
  intros Hty. unfold getRemainingSpendToCap, computeOfferStats.
  rewrite Hty. destruct (JS.le _ 0); reflexivity.
Qed.

Lemma getRemainingSpendToCap_threshold_witness :
  is_threshold (spend125_get25 100 active) = true /\
  getRemainingSpendToCap (spend125_get25 100 active)
    = remainSpendToCap (computeOfferStats (spend125_get25 100 active)).
Proof.
  split; [reflexivity|].
  apply (getRemainingSpendToCap_threshold (spend125_get25 100 active)).
  reflexivity.
Defined.

(** X8: for a threshold offer with a threshold that is not [<= 0]: once
    [totalSpendTracked >= spendThreshold], the reward is earned and no
    spend remains ([remainSpendToCap] and [getRemainingSpendToCap] are not
    above zero); while [totalSpendTracked < spendThreshold], nothing is
    earned and some spend remains (both are above zero). *)
Theorem threshold_met_iff_nothing_remains o :
  is_threshold o = true ->
  JS.le (spendThreshold o ?? 0%float) 0 = false ->
  (JS.ge (totalSpendTracked o) (spendThreshold o ?? 0%float) = true ->
     earned (computeOfferStats o) = reward_of o /\
     JS.gt (remainSpendToCap (computeOfferStats o)) 0 = false /\
     JS.gt (getRemainingSpendToCap o) 0 = false) /\
  (JS.lt (totalSpendTracked o) (spendThreshold o ?? 0%float) = true ->
     earned (computeOfferStats o) = 0%float /\
     JS.gt (remainSpendToCap (computeOfferStats o)) 0 = true /\
     JS.gt (getRemainingSpendToCap o) 0 = true).
Proof.
  intros Hty Hthr.
  unfold computeOfferStats, getRemainingSpendToCap, reward_of.
  rewrite Hty, Hthr. cbn [earned remainSpendToCap]. split.
  - intros Hge. rewrite Hge. split; [reflexivity|].
    assert (H : JS.gt (JS.Math_max 0
                  (spendThreshold o ?? 0 - totalSpendTracked o)%float) 0 = false)
      by (apply Math_max_0_of_not_above, sub_le; exact Hge).
    split; exact H.
  - intros Hlt.
    assert (Hge : JS.ge (totalSpendTracked o) (spendThreshold o ?? 0%float)
                  = false).
    { unfold JS.ge. unfold JS.lt in Hlt.
      destruct (PrimFloat.leb _ _) eqn:Hle; [|reflexivity].
      pose proof (sub_le _ _ Hle) as H1.
      pose proof (sub_lt _ _ Hlt) as H2.
      rewrite sub_swap in H2. congruence. }
    rewrite Hge. split; [reflexivity|].
    assert (Hpos : JS.gt (spendThreshold o ?? 0 - totalSpendTracked o)%float 0
                   = true)
      by (rewrite <- sub_swap; apply sub_lt, Hlt).
    rewrite (Math_max_0_of_above _ Hpos). split; exact Hpos.
Qed.

Lemma threshold_met_iff_nothing_remains_witness :
  is_threshold (spend125_get25 124.99 active) = true /\
  JS.le (spendThreshold (spend125_get25 124.99 active) ?? 0%float) 0 = false /\
  earned (computeOfferStats (spend125_get25 124.99 active)) = 0%float /\
  JS.gt (getRemainingSpendToCap (spend125_get25 124.99 active)) 0 = true.
Proof.
  split; [reflexivity|]. split; [reflexivity|].
  destruct (threshold_met_iff_nothing_remains (spend125_get25 124.99 active)
              eq_refl eq_refl) as [_ H].
  destruct (H eq_refl) as (He & _ & Hr). split; [exact He | exact Hr].
Defined.

(** X10: [sortOffersByExpiry] is antisymmetric: it is below zero for
    [(a, b)] exactly when it is above zero for [(b, a)], and the other
    way round. *)
Theorem sortOffersByExpiry_antisym a b :
  JS.lt (sortOffersByExpiry a b) 0 = JS.gt (sortOffersByExpiry b a) 0 /\
  JS.gt (sortOffersByExpiry a b) 0 = JS.lt (sortOffersByExpiry b a) 0.
Proof.
  unfold sortOffersByExpiry.
  rewrite (number_strict_ne_sym (expireAt b) (expireAt a)).
  rewrite (number_strict_ne_sym (getRemainingSpendToCap b)
             (getRemainingSpendToCap a)).
  destruct (number_strict_ne (expireAt a) (expireAt b));
    [|destruct (number_strict_ne _ _)];
    (split; [apply sub_swap | symmetry; apply sub_swap]).
Qed.

(** X11: [sortOffersByExpiry] of an offer with itself is 0, when its
    [expireAt] and remaining spend are numbers and its [createdAt] is
    finite. *)
Theorem sortOffersByExpiry_refl a :
  is_nan (expireAt a) = false ->
  is_nan (getRemainingSpendToCap a) = false ->
  is_finite (createdAt a) = true ->
  sortOffersByExpiry a a = 0%float.
Proof.
  intros He Hr Hc. unfold sortOffersByExpiry, number_strict_ne.
  unfold is_nan in He, Hr.
  apply negb_false_iff in He, Hr. rewrite He, Hr. cbn [negb].
  apply sub_diag, Hc.
Qed.

Lemma sortOffersByExpiry_refl_witness :
  is_nan (expireAt (coffee_offer None)) = false /\
  is_nan (getRemainingSpendToCap (coffee_offer None)) = false /\
  is_finite (createdAt (coffee_offer None)) = true /\
  sortOffersByExpiry (coffee_offer None) (coffee_offer None) = 0%float.
Proof.
  do 3 (split; [reflexivity|]).
  apply (sortOffersByExpiry_refl (coffee_offer None)); reflexivity.
Defined.

(** X12: [sortOffersByExpiry] orders by expiry, then by remaining spend,
    then by creation time: when [a] expires before [b], or expires at the
    same instant with less spend remaining, or also has the same spend
    remaining and was created earlier, the comparator is below zero for
    [(a, b)] and above zero for [(b, a)]. *)
Theorem sortOffersByExpiry_order a b :
  (JS.lt (expireAt a) (expireAt b) = true ->
     JS.lt (sortOffersByExpiry a b) 0 = true /\
     JS.gt (sortOffersByExpiry b a) 0 = true) /\
  (number_strict_ne (expireAt a) (expireAt b) = false ->
   JS.lt (getRemainingSpendToCap a) (getRemainingSpendToCap b) = true ->
     JS.lt (sortOffersByExpiry a b) 0 = true /\
     JS.gt (sortOffersByExpiry b a) 0 = true) /\
  (number_strict_ne (expireAt a) (expireAt b) = false ->
   number_strict_ne (getRemainingSpendToCap a) (getRemainingSpendToCap b)
     = false ->
   JS.lt (createdAt a) (createdAt b) = true ->
     JS.lt (sortOffersByExpiry a b) 0 = true /\
     JS.gt (sortOffersByExpiry b a) 0 = true).
Proof.
  unfold sortOffersByExpiry.
  rewrite (number_strict_ne_sym (expireAt b) (expireAt a)).
  rewrite (number_strict_ne_sym (getRemainingSpendToCap b)
             (getRemainingSpendToCap a)).
  split; [|split].
  - intros Hlt. rewrite (lt_strict_ne _ _ Hlt).
    split; [|rewrite <- sub_swap]; apply sub_lt, Hlt.
  - intros -> Hlt. rewrite (lt_strict_ne _ _ Hlt).
    split; [|rewrite <- sub_swap]; apply sub_lt, Hlt.
  - intros -> -> Hlt.
    split; [|rewrite <- sub_swap]; apply sub_lt, Hlt.
Qed.

Lemma sortOffersByExpiry_order_witness :
  JS.lt (expireAt (coffee_offer None)) (expireAt bakery_offer) = true /\
  JS.lt (sortOffersByExpiry (coffee_offer None) bakery_offer) 0 = true /\
  JS.gt (sortOffersByExpiry bakery_offer (coffee_offer None)) 0 = true.
Proof.
  split; [reflexivity|].
  destruct (sortOffersByExpiry_order (coffee_offer None) bakery_offer)
    as [H _].
  exact (H eq_refl).
Defined.

End MoreOfferMath.

(** ** More on status normalization *)

Section MoreStatus.

Implicit Types (o u : Offer) (now : JS.number) (w : World)
  (loaded updates : list Offer).

(** X9: [normalizeOffer] changes at most the status, to the one
    [computeStatus] gives; it returns an archived offer unchanged, and
    its result is archived exactly when its input is. *)
Theorem normalizeOffer_frame now o :
  normalizeOffer now o = with_status (computeStatus now o) o /\
  (status o = archived -> normalizeOffer now o = o) /\
  (status (normalizeOffer now o) = archived <-> status o = archived).
Proof.
  split; [|split].
  - unfold normalizeOffer.
    destruct (bool_decide (computeStatus now o <> status o)
              && bool_decide (status o <> archived)) eqn:Hb; [reflexivity|].
    apply andb_false_iff in Hb as [Hb | Hb]; apply bool_decide_eq_false in Hb.
    + apply dec_stable in Hb. rewrite Hb. destruct o; reflexivity.
    + apply dec_stable in Hb.
      rewrite (proj2 (computeStatus_archived now o) Hb), <- Hb.
      destruct o; reflexivity.
  - intros Ha. apply normalizeOffer_fixed.
    rewrite (proj2 (computeStatus_archived now o) Ha). exact Ha.
  - rewrite normalizeOffer_status. apply computeStatus_archived.
Qed.

Lemma computeStatus_io_run o w :
  exists s w',
    computeStatus_io o w = (Returned s, w') /\
    tables w' = tables w /\
    (s = archived <-> status o = archived).
Proof.
  unfold computeStatus_io. case_bool_decide as Ha.
  - exists archived, w. repeat split; auto.
  - eexists _, _. split; [reflexivity|]. split; [reflexivity|].
    apply computeStatus_archived.
Qed.

Lemma status_updates_run loaded : forall w,
  exists updates w',
    status_updates loaded w = (Returned updates, w') /\
    tables w' = tables w /\
    Forall (status_correction loaded) updates.
Proof.
  induction loaded as [|o rest IH]; intros w.
  - exists [], w. repeat split. constructor.
  - cbn [status_updates]. unfold normalizeOffer_io, mbind, IO_bind.
    destruct (computeStatus_io_run o w) as (s & w1 & -> & Ht1 & Hs).
    cbn.
    destruct (IH w1) as (us & w2 & -> & Ht2 & Hus). cbn.
    eexists _, w2. split; [reflexivity|]. split; [congruence|].
    assert (Hrest : Forall (status_correction (o :: rest)) us).
    { eapply Forall_impl; [exact Hus|].
      intros u (o' & s' & Hin & Hu). exists o', s'.
      split; [right; exact Hin | exact Hu]. }
    destruct (bool_decide (s <> status o) && bool_decide (status o <> archived))
      eqn:Hb.
    + apply andb_prop in Hb as [Hne Hna].
      apply bool_decide_eq_true in Hne, Hna. cbn [status with_status].
      rewrite bool_decide_true by exact Hne.
      constructor; [|exact Hrest].
      exists o, s. repeat split; try assumption; [left|tauto].
    + rewrite bool_decide_false by (intros Hne; apply Hne; reflexivity).
      exact Hrest.
Qed.

Lemma put_all_run updates : forall w,
  exists w',
    put_all updates w = (Returned tt, w') /\
    cards (tables w') = cards (tables w) /\
    spendLogs (tables w') = spendLogs (tables w) /\
    stats (tables w') = stats (tables w) /\
    (forall k, offers (tables w') !! k = offers (tables w) !! k \/
       exists u, u ∈ updates /\ id u = k /\ offers (tables w') !! k = Some u).
Proof.
  induction updates as [|u rest IH]; intros w.
  - exists w. repeat split. intros k. left. reflexivity.
  - cbn [put_all]. unfold mbind, IO_bind, offers_put. cbn -[insert].
    destruct (IH (set_tables
      (mkTables (cards (tables w)) (<[id u := u]> (offers (tables w)))
         (spendLogs (tables w)) (stats (tables w))) w))
      as (w' & -> & Hc & Hl & Hs & Ho).
    exists w'. split; [reflexivity|]. cbn -[insert] in *.
    repeat split; try assumption.
    intros k. destruct (Ho k) as [Hsame | (u' & Hin & Hid & Hk)].
    + destruct (decide (id u = k)) as [Hk | Hk].
      * right. exists u. split; [left|]. split; [exact Hk|].
        rewrite Hsame, <- Hk. apply lookup_insert_eq.
      * left. rewrite Hsame. apply lookup_insert_ne. exact Hk.
    + right. exists u'. split; [right; exact Hin | tauto].
Qed.

(** X26: the effect that persists normalized offers always returns,
    leaves cards, spend logs and stats alone, and leaves every stored
    offer as it was or replaces it by a loaded offer that is not archived,
    with a new status that is not [archived] and nothing else changed. *)
Theorem persist_normalized_corrects_status_only dbReady loaded w :
  exists w',
    persist_normalized dbReady loaded w = (Returned tt, w') /\
    cards (tables w') = cards (tables w) /\
    spendLogs (tables w') = spendLogs (tables w) /\
    stats (tables w') = stats (tables w) /\
    (forall k, offers (tables w') !! k = offers (tables w) !! k \/
       exists o s, o ∈ loaded /\ id o = k /\
         status o <> archived /\ s <> archived /\ s <> status o /\
         offers (tables w') !! k = Some (with_status s o)).
Proof.
  unfold persist_normalized.
  destruct (negb dbReady || bool_decide (length loaded = 0)).
  { exists w. repeat split. intros k. left. reflexivity. }
  unfold mbind, IO_bind.
  destruct (status_updates_run loaded w) as (us & w1 & -> & Ht & Hus).
  destruct (bool_decide (length us = 0)).
  { exists w1. rewrite Ht. repeat split. intros k. left. reflexivity. }
  unfold transaction.
  destruct (put_all_run us w1) as (w2 & -> & Hc & Hl & Hs & Ho).
  exists w2. rewrite <- Ht. repeat split; try assumption.
  intros k. destruct (Ho k) as [Hsame | (u & Hin & Hid & Hk)]; [left; exact Hsame|].
  right. rewrite Forall_forall in Hus.
  destruct (Hus u Hin) as (o & s & Hino & -> & Hna & Hsa & Hne).
  exists o, s. repeat split; assumption.
Qed.

End MoreStatus.

(** ** More on the lifecycle actions *)

Section MoreLifecycle.

Implicit Types (o : Offer) (w : World) (key : string).

Lemma logged_world_well_keyed : well_keyed (tables logged_world).
Proof.
  split; intros k x Hx; cbn in Hx;
    apply lookup_singleton_Some in Hx as [<- <-]; reflexivity.
Qed.

(** X13: [deleteOfferPermanently] returns, and afterwards the offer is
    gone and no spend log refers to it, while every other offer, every
    spend log of another offer, the cards and the stats are as before. *)
Theorem deleteOfferPermanently_cascade key w :
  indexedDB_defined w = true ->
  exists w',
    deleteOfferPermanently key w = (Returned tt, w') /\
    offers (tables w') !! key = None /\
    (forall k log, spendLogs (tables w') !! k = Some log -> offerId log <> key) /\
    (forall k, k <> key -> offers (tables w') !! k = offers (tables w) !! k) /\
    (forall k log, spendLogs (tables w) !! k = Some log -> offerId log <> key ->
       spendLogs (tables w') !! k = Some log) /\
    cards (tables w') = cards (tables w) /\
    stats (tables w') = stats (tables w).
Proof.
  intros Hdb.
  unfold deleteOfferPermanently, getDb, transaction,
    spendLogs_delete_where_offerId, offers_delete, mbind, IO_bind.
  rewrite Hdb. cbn. eexists. split; [reflexivity|]. cbn.
  split; [apply lookup_delete_eq|].
  split. { intros k log Hk. apply map_lookup_filter_Some in Hk as [_ Hk]. exact Hk. }
  split. { intros k Hk. apply lookup_delete_ne. congruence. }
  split. { intros k log Hk Hne. apply map_lookup_filter_Some. split; assumption. }
  split; reflexivity.
Qed.

Lemma deleteOfferPermanently_cascade_witness :
  indexedDB_defined logged_world = true /\
  exists w',
    deleteOfferPermanently "o-4" logged_world = (Returned tt, w') /\
    offers (tables w') !! "o-4" = None /\
    spendLogs (tables w') !! "l-2"
      = Some (mkSpendLog "l-2" "o-7" 20%float None 1700000002000%float).
Proof.
  split; [reflexivity|].
  destruct (deleteOfferPermanently_cascade "o-4" logged_world eq_refl)
    as (w' & Hrun & Hgone & _ & _ & Hlogs & _).
  exists w'. split; [exact Hrun|]. split; [exact Hgone|].
  apply Hlogs; [reflexivity | discriminate].
Defined.

Lemma delete_unreferenced key w :
  indexedDB_defined w = true ->
  offers (tables w) !! key = None ->
  (forall k log, spendLogs (tables w) !! k = Some log -> offerId log <> key) ->
  deleteOfferPermanently key w = (Returned tt, w).
Proof.
  intros Hdb Hnone Hlogs.
  unfold deleteOfferPermanently, getDb, transaction,
    spendLogs_delete_where_offerId, offers_delete, mbind, IO_bind.
  rewrite Hdb. cbn. f_equal.
  rewrite delete_id by exact Hnone.
  rewrite map_filter_id by (intros k log Hk; exact (Hlogs k log Hk)).
  destruct w as [d [c o l s] cl t]. reflexivity.
Qed.

(** X14: [deleteOfferPermanently] of an id that no offer and no spend
    log carries leaves the world as it is, and deleting the same id twice
    is deleting it once. *)
Theorem deleteOfferPermanently_unknown_or_again key w :
  indexedDB_defined w = true ->
  (offers (tables w) !! key = None ->
   (forall k log, spendLogs (tables w) !! k = Some log -> offerId log <> key) ->
   deleteOfferPermanently key w = (Returned tt, w)) /\
  (exists w',
     deleteOfferPermanently key w = (Returned tt, w') /\
     deleteOfferPermanently key w' = (Returned tt, w')).
Proof.
  intros Hdb. split; [intros Hnone Hlogs; apply delete_unreferenced; assumption|].
  assert (Hrun : exists w',
    deleteOfferPermanently key w = (Returned tt, w') /\
    indexedDB_defined w' = true /\
    offers (tables w') !! key = None /\
    (forall k log, spendLogs (tables w') !! k = Some log -> offerId log <> key)).
  { unfold deleteOfferPermanently, getDb, transaction,
      spendLogs_delete_where_offerId, offers_delete, mbind, IO_bind.
    rewrite Hdb. cbn. eexists. split; [reflexivity|]. cbn.
    split; [exact Hdb|]. split; [apply lookup_delete_eq|].
    intros k log Hk. apply map_lookup_filter_Some in Hk as [_ Hk]. exact Hk. }
  destruct Hrun as (w' & Hrun & Hdb' & Hnone & Hlogs).
  exists w'. split; [exact Hrun|].
  apply delete_unreferenced; assumption.
Qed.

Lemma deleteOfferPermanently_unknown_or_again_witness :
  indexedDB_defined logged_world = true /\
  exists w',
    deleteOfferPermanently "o-4" logged_world = (Returned tt, w') /\
    deleteOfferPermanently "o-4" w' = (Returned tt, w').
Proof.
  split; [reflexivity|].
  apply (deleteOfferPermanently_unknown_or_again "o-4" logged_world).
  reflexivity.
Defined.

Lemma archiveOffer_found key o w :
  indexedDB_defined w = true ->
  offers (tables w) !! key = Some o ->
  exists w',
    archiveOffer key w = (Returned tt, w') /\
    offers (tables w') =
      <[id o := archived_snapshot o
                  (archivedAt o ?? clock w (ticks w))
                  (clock w (ticks w + (if archivedAt o is Some _ then 0 else 1)))]>
        (offers (tables w)) /\
    cards (tables w') = cards (tables w) /\
    spendLogs (tables w') = spendLogs (tables w) /\
    (not_credited o = false -> stats (tables w') = stats (tables w)) /\
    (forall k, k <> STATS_KEY ->
       (forall e, stats (tables w) !! STATS_KEY = Some e -> stats_id e <> k) ->
       stats (tables w') !! k = stats (tables w) !! k) /\
    (forall k s, stats (tables w') !! k = Some s ->
       stats (tables w) !! k = Some s \/ stats_id s = k).
Proof.
  intros Hdb Hget.
  destruct (recalcOfferProgress_spread o) as [c Hc].
  unfold archiveOffer, getDb, transaction, offers_get, mbind, IO_bind,
    archived_snapshot.
  rewrite Hdb. cbn -[insert]. rewrite Hget. cbn -[insert].
  rewrite Hc. cbn -[insert].
  assert (Hnc : forall t u,
    not_credited (with_updatedAt u (with_archivedAt t
      (with_status archived (with_cashbackEarned c o)))) = not_credited o)
    by reflexivity.
  assert (Hcr : not_credited o = false -> creditedToLifetime o = Some true).
  { unfold not_credited. destruct (creditedToLifetime o) as [[|]|];
      congruence. }
  destruct (archivedAt o) as [t0|] eqn:Har; cbn -[insert]; rewrite Hnc;
    rewrite ?Nat.add_0_r, ?Nat.add_1_r;
    (destruct (not_credited o) eqn:Hcred; cbn -[insert];
     [ unfold getOrCreateStats, stats_get, mbind, IO_bind; cbn -[insert];
       destruct (stats (tables w) !! STATS_KEY) as [e|] eqn:He; cbn -[insert]
     | ]);
    (eexists; split; [reflexivity|]; cbn -[insert];
     split;
       [ first [ reflexivity
               | f_equal; specialize (Hcr eq_refl); clear - Hcr;
                 destruct o; cbn in *; subst; reflexivity ] |];
     split; [reflexivity|]; split; [reflexivity|];
     split; [try discriminate; reflexivity|]; split).
  all: try (intros k Hk Hid; try reflexivity;
            rewrite ?lookup_insert_ne
              by (try (apply Hid; reflexivity); congruence);
            reflexivity).
  all: intros k s; try (left; assumption).
  all: match goal with
       | |- <[?K := _]> _ !! _ = _ -> _ =>
           destruct (decide (K = k)) as [<-|Hne];
           [ rewrite lookup_insert_eq; intros [= <-]; right; reflexivity
           | rewrite !lookup_insert_ne by exact Hne; left; assumption ]
       end.
Qed.

(** X15: [archiveOffer] of a stored offer stores the recalculated offer
    as archived and credited, keeps the [archivedAt] it already has (a
    second archive does not move it) and reads it from the clock
    otherwise, sets [updatedAt] to the next reading; and the stored offer
    is a fixed point of [normalizeOffer] at any time. *)
Theorem archiveOffer_stores_snapshot key o w :
  indexedDB_defined w = true ->
  well_keyed (tables w) ->
  offers (tables w) !! key = Some o ->
  exists w',
    archiveOffer key w = (Returned tt, w') /\
    offers (tables w') !! key =
      Some (archived_snapshot o
              (archivedAt o ?? clock w (ticks w))
              (clock w (ticks w + (if archivedAt o is Some _ then 0 else 1)))) /\
    (forall now, normalizeOffer now
       (archived_snapshot o
              (archivedAt o ?? clock w (ticks w))
              (clock w (ticks w + (if archivedAt o is Some _ then 0 else 1))))
     = archived_snapshot o
              (archivedAt o ?? clock w (ticks w))
              (clock w (ticks w + (if archivedAt o is Some _ then 0 else 1)))).
Proof.
  intros Hdb [Hko _] Hget.
  destruct (archiveOffer_found key o w Hdb Hget) as (w' & Hrun & Ho & _).
  exists w'. split; [exact Hrun|]. split.
  - rewrite Ho, (Hko _ _ Hget). apply lookup_insert_eq.
  - intros now. apply normalizeOffer_fixed. symmetry.
    apply computeStatus_archived. reflexivity.
Qed.

Lemma archiveOffer_stores_snapshot_witness :
  indexedDB_defined (coffee_world None) = true /\
  well_keyed (tables (coffee_world None)) /\
  offers (tables (coffee_world None)) !! "o-4" = Some (coffee_offer None) /\
  exists w',
    archiveOffer "o-4" (coffee_world None) = (Returned tt, w') /\
    offers (tables w') !! "o-4" =
      Some (archived_snapshot (coffee_offer None)
              1767000000000%float 1767000000001%float).
Proof.
  split; [reflexivity|]. split; [apply coffee_world_well_keyed|].
  split; [reflexivity|].
  destruct (archiveOffer_stores_snapshot "o-4" (coffee_offer None)
              (coffee_world None) eq_refl (coffee_world_well_keyed None)
              eq_refl) as (w' & Hrun & Hstored & _).
  exists w'. split; [exact Hrun | exact Hstored].
Defined.

(** X16: on a well-keyed store, [archiveOffer] always returns, leaves
    cards and spend logs alone, touches no offer but the one under the
    given id and no stats record but ["app"], and neither creates nor
    removes an offer. *)
Theorem archiveOffer_frame key w :
  indexedDB_defined w = true ->
  well_keyed (tables w) ->
  exists w',
    archiveOffer key w = (Returned tt, w') /\
    cards (tables w') = cards (tables w) /\
    spendLogs (tables w') = spendLogs (tables w) /\
    (forall k, k <> key -> offers (tables w') !! k = offers (tables w) !! k) /\
    (forall k, k <> STATS_KEY ->
       stats (tables w') !! k = stats (tables w) !! k) /\
    (offers (tables w') !! key = None <-> offers (tables w) !! key = None).
Proof.
  intros Hdb [Hko Hks].
  destruct (offers (tables w) !! key) as [o|] eqn:Hget.
  - destruct (archiveOffer_found key o w Hdb Hget)
      as (w' & Hrun & Ho & Hc & Hl & _ & Hs).
    exists w'. split; [exact Hrun|]. split; [exact Hc|]. split; [exact Hl|].
    rewrite Ho, (Hko _ _ Hget). split; [|split].
    + intros k Hk. apply lookup_insert_ne. congruence.
    + intros k Hk. apply Hs; [exact Hk|].
      intros e He. rewrite (Hks _ _ He). congruence.
    + rewrite lookup_insert_eq. split; discriminate.
  - exists w. split.
    + unfold archiveOffer, getDb, transaction, offers_get, mbind, IO_bind.
      rewrite Hdb. cbn. rewrite Hget. reflexivity.
    + rewrite Hget. repeat split; reflexivity.
Qed.

Lemma archiveOffer_frame_witness :
  indexedDB_defined logged_world = true /\
  well_keyed (tables logged_world) /\
  exists w',
    archiveOffer "o-4" logged_world = (Returned tt, w') /\
    spendLogs (tables w') = spendLogs (tables logged_world).
Proof.
  split; [reflexivity|]. split; [apply logged_world_well_keyed|].
  destruct (archiveOffer_frame "o-4" logged_world eq_refl
              logged_world_well_keyed) as (w' & Hrun & _ & Hlogs & _).
  exists w'. split; [exact Hrun | exact Hlogs].
Defined.

(** X17: without IndexedDB in the environment, [archiveOffer] and
    [deleteOfferPermanently] throw the error of [getDb] and change
    nothing. *)
Theorem actions_need_indexedDB key w :
  indexedDB_defined w = false ->
  archiveOffer key w
    = (Thrown "IndexedDB is not available in this environment.", w) /\
  deleteOfferPermanently key w
    = (Thrown "IndexedDB is not available in this environment.", w).
Proof.
  intros Hdb.
  unfold archiveOffer, deleteOfferPermanently, getDb, mbind, IO_bind.
  rewrite Hdb. split; reflexivity.
Qed.

Lemma actions_need_indexedDB_witness :
  indexedDB_defined offline_world = false /\
  archiveOffer "o-4" offline_world
    = (Thrown "IndexedDB is not available in this environment.", offline_world).
Proof.
  split; [reflexivity|].
  apply (actions_need_indexedDB "o-4" offline_world). reflexivity.
Defined.

(** X18: [archiveOffer] and [deleteOfferPermanently] keep every offer
    and every stats record stored under its own id. *)
Theorem actions_keep_well_keyed key w :
  indexedDB_defined w = true ->
  well_keyed (tables w) ->
  well_keyed (tables (archiveOffer key w).2) /\
  well_keyed (tables (deleteOfferPermanently key w).2).
Proof.
  intros Hdb [Hko Hks]. split.
  - destruct (offers (tables w) !! key) as [o|] eqn:Hget.
    + destruct (archiveOffer_found key o w Hdb Hget)
        as (w' & Hrun & Ho & _ & _ & _ & _ & Hs).
      rewrite Hrun. cbn. split.
      * intros k x. rewrite Ho.
        destruct (decide (id o = k)) as [<-|Hne].
        -- rewrite lookup_insert_eq. intros [= <-].
           destruct (recalcOfferProgress_spread o) as [c Hc].
           unfold archived_snapshot. rewrite Hc. reflexivity.
        -- rewrite lookup_insert_ne by exact Hne. apply Hko.
      * intros k x Hx. destruct (Hs k x Hx) as [Hold | Hid];
          [exact (Hks _ _ Hold) | exact Hid].
    + unfold archiveOffer, getDb, transaction, offers_get, mbind, IO_bind.
      rewrite Hdb. cbn. rewrite Hget. cbn. split; assumption.
  - unfold deleteOfferPermanently, getDb, transaction,
      spendLogs_delete_where_offerId, offers_delete, mbind, IO_bind.
    rewrite Hdb. cbn. split; [|exact Hks].
    intros k x Hx. cbn in Hx. apply lookup_delete_Some in Hx as [_ Hx].
    exact (Hko _ _ Hx).
Qed.

Lemma actions_keep_well_keyed_witness :
  indexedDB_defined logged_world = true /\
  well_keyed (tables logged_world) /\
  well_keyed (tables (archiveOffer "o-4" logged_world).2) /\
  well_keyed (tables (deleteOfferPermanently "o-4" logged_world).2).
Proof.
  split; [reflexivity|]. split; [apply logged_world_well_keyed|].
  apply (actions_keep_well_keyed "o-4" logged_world);
    [reflexivity | apply logged_world_well_keyed].
Defined.

(** X19: [getOrCreateStats] returns the record stored under ["app"]
    afterwards: the existing one, with the world untouched, or a new one
    at zero stamped with the clock; a second call returns the same record
    and changes nothing. *)
Theorem getOrCreateStats_spec w :
  exists s w',
    getOrCreateStats w = (Returned s, w') /\
    stats (tables w') !! STATS_KEY = Some s /\
    (forall e, stats (tables w) !! STATS_KEY = Some e -> s = e /\ w' = w) /\
    (stats (tables w) !! STATS_KEY = None ->
       s = mkAppStats STATS_KEY 0 (clock w (ticks w)) /\
       stats (tables w') = <[STATS_KEY := s]> (stats (tables w))) /\
    getOrCreateStats w' = (Returned s, w').
Proof.
  unfold getOrCreateStats, stats_get, stats_put, Date_now, mbind, IO_bind.
  cbn -[insert].
  destruct (stats (tables w) !! STATS_KEY) as [e|] eqn:He; cbn -[insert].
  - exists e, w. rewrite He. repeat split; congruence.
  - eexists _, _. split; [reflexivity|]. cbn -[insert].
    rewrite lookup_insert_eq. repeat split; try discriminate.
Qed.

End MoreLifecycle.

(** ** Logging a purchase *)

Section QuickLog.

Implicit Types (o sel latest : Offer) (w : World) (amount : JS.number).

Lemma quickLog_run sel amount uuid note w :
  valid_amount amount = true ->
  quickLog_handleSubmit true (Some sel) amount uuid note w =
    match spendLogs (tables w) !! uuid, offers (tables w) !! id sel with
    | None, Some latest =>
        (Returned (StatusMessage "Purchase saved."),
         mkWorld (indexedDB_defined w)
           (mkTables (cards (tables w))
              (<[id latest :=
                   with_updatedAt (clock w (ticks w))
                     (with_totalSpendTracked
                        (Number_toFixed2 (totalSpendTracked latest + amount)%float)
                        latest)]> (offers (tables w)))
              (<[uuid := mkSpendLog uuid (id sel) amount
                           (if decide (note = "") then None else Some note)
                           (clock w (ticks w))]> (spendLogs (tables w)))
              (stats (tables w)))
           (clock w) (S (ticks w)))
    | _, _ =>
        (Returned (ErrorMessage "Unable to save this purchase. Please try again."),
         mkWorld (indexedDB_defined w) (tables w) (clock w) (S (ticks w)))
    end.
Proof.
  unfold valid_amount, quickLog_handleSubmit. intros Hv.
  apply negb_true_iff in Hv. rewrite Hv.
  unfold try_catch, transaction, spendLogs_add, offers_get, offers_put,
    Date_now, throw, mbind, mret, IO_bind, IO_ret, set_tables.
  cbn -[insert].
  destruct (spendLogs (tables w) !! uuid) as [l|]; cbn -[insert];
    [destruct w as [d [c o l' s] cl t]; reflexivity|].
  destruct (offers (tables w) !! id sel) as [latest|]; cbn -[insert];
    [reflexivity|].
  destruct w as [d [c o l' s] cl t]; reflexivity.
Qed.

(** X20: a purchase with a valid amount, a fresh log id and a stored
    offer is saved as a whole: the log is added, the stored offer (not
    the one on screen) gets [totalSpendTracked] increased by the amount
    and rounded to cents and [updatedAt] set, nothing else of it changes
    ([cashbackEarned] and [status] included), and cards and stats are
    untouched. *)
Theorem quickLog_saves sel latest amount uuid note w :
  valid_amount amount = true ->
  spendLogs (tables w) !! uuid = None ->
  offers (tables w) !! id sel = Some latest ->
  exists w',
    quickLog_handleSubmit true (Some sel) amount uuid note w
      = (Returned (StatusMessage "Purchase saved."), w') /\
    spendLogs (tables w') =
      <[uuid := mkSpendLog uuid (id sel) amount
                  (if decide (note = "") then None else Some note)
                  (clock w (ticks w))]> (spendLogs (tables w)) /\
    offers (tables w') =
      <[id latest :=
          with_updatedAt (clock w (ticks w))
            (with_totalSpendTracked
               (Number_toFixed2 (totalSpendTracked latest + amount)%float)
               latest)]> (offers (tables w)) /\
    cards (tables w') = cards (tables w) /\
    stats (tables w') = stats (tables w).
Proof.
  intros Hv Hfresh Hget.
  rewrite (quickLog_run sel amount uuid note w Hv), Hfresh, Hget.
  eexists. split; [reflexivity|]. repeat split.
Qed.

Lemma quickLog_saves_witness :
  valid_amount 12.5 = true /\
  spendLogs (tables (coffee_world None)) !! "l-9" = None /\
  offers (tables (coffee_world None)) !! id (coffee_offer None)
    = Some (coffee_offer None) /\
  exists w',
    quickLog_handleSubmit true (Some (coffee_offer None)) 12.5 "l-9" "lunch"
      (coffee_world None)
      = (Returned (StatusMessage "Purchase saved."), w') /\
    stats (tables w') = stats (tables (coffee_world None)).
Proof.
  do 3 (split; [reflexivity|]).
  destruct (quickLog_saves (coffee_offer None) (coffee_offer None) 12.5
              "l-9" "lunch" (coffee_world None) eq_refl eq_refl eq_refl)
    as (w' & Hrun & _ & _ & _ & Hstats).
  exists w'. split; [exact Hrun | exact Hstats].
Defined.

(** X21: when the offer is no longer stored, or the log id is in use, a
    purchase with a valid amount is not saved at all: the panel shows its
    failure message and the tables are as before (the log that was added
    first is rolled back). *)
Theorem quickLog_rolls_back sel amount uuid note w :
  valid_amount amount = true ->
  offers (tables w) !! id sel = None \/ spendLogs (tables w) !! uuid <> None ->
  exists w',
    quickLog_handleSubmit true (Some sel) amount uuid note w
      = (Returned
           (ErrorMessage "Unable to save this purchase. Please try again."),
         w') /\
    tables w' = tables w.
Proof.
  intros Hv Hbad.
  rewrite (quickLog_run sel amount uuid note w Hv).
  destruct (spendLogs (tables w) !! uuid) as [l|] eqn:Hl.
  - eexists. split; reflexivity.
  - destruct Hbad as [-> | Hbad]; [|congruence].
    eexists. split; reflexivity.
Qed.

Lemma quickLog_rolls_back_witness :
  valid_amount 12.5 = true /\
  offers (tables (coffee_world None)) !! id (spend125_get25 0 active) = None /\
  exists w',
    quickLog_handleSubmit true (Some (spend125_get25 0 active)) 12.5 "l-9"
      "" (coffee_world None)
      = (Returned
           (ErrorMessage "Unable to save this purchase. Please try again."),
         w') /\
    tables w' = tables (coffee_world None).
Proof.
  split; [reflexivity|]. split; [reflexivity|].
  apply (quickLog_rolls_back (spend125_get25 0 active) 12.5 "l-9" ""
           (coffee_world None)); [reflexivity | left; reflexivity].
Defined.


End QuickLog.

(** ** More on the schema upgrades *)

Section MoreUpgrades.

Implicit Types (r : StoredOffer) (tx : UpgradeStore).

(** X23: after the upgrade to version 2 every stored offer has a
    status, a [creditedToLifetime] flag and an [archivedAt] key, the
    ["app"] stats record exists, no offer is added or removed, and no
    other stats record is touched. *)
Theorem upgrade_v2_shape now tx :
  (forall k r, up_offers (upgrade_v2 now tx) !! k = Some r ->
     (exists s, so_status r = Value s) /\
     (exists b, so_creditedToLifetime r = Value b) /\
     has_key (so_archivedAt r) = true) /\
  (exists s, up_stats (upgrade_v2 now tx) !! "app" = Some s) /\
  (forall k, up_offers (upgrade_v2 now tx) !! k = None <->
             up_offers tx !! k = None) /\
  (forall k, k <> "app" ->
     up_stats (upgrade_v2 now tx) !! k = up_stats tx !! k).
Proof.
  unfold upgrade_v2. cbn -[insert]. split; [|split; [|split]].
  - intros k r Hr. apply lookup_fmap_Some in Hr as (r0 & <- & _).
    destruct r0 as [i rt cap st cr ar ty am th]. cbn.
    destruct st, cr, ar; cbn; repeat split; eauto.
  - destruct (up_stats tx !! "app") as [s|] eqn:Hs; [eauto|].
    rewrite lookup_insert_eq. eauto.
  - intros k. rewrite lookup_fmap. apply fmap_None.
  - intros k Hk. destruct (up_stats tx !! "app"); [reflexivity|].
    apply lookup_insert_ne. congruence.
Qed.

(** X24: after the upgrade to version 3 every stored offer has a reward
    type and a reward amount, and a spend threshold unless it is a
    percentage offer whose rate is not above zero; no offer is added or
    removed and the stats are untouched. *)
Theorem upgrade_v3_shape tx :
  (forall k r, up_offers (upgrade_v3 tx) !! k = Some r ->
     (exists t, so_rewardType r = Value t) /\
     (exists a, so_rewardAmount r = Value a) /\
     ((exists a, so_spendThreshold r = Value a) \/
      (so_rewardType r = Value percentage /\
       JS.gt (to_number (so_rate r)) 0 = false))) /\
  (forall k, up_offers (upgrade_v3 tx) !! k = None <->
             up_offers tx !! k = None) /\
  up_stats (upgrade_v3 tx) = up_stats tx.
Proof.
  unfold upgrade_v3. cbn. split; [|split; [|reflexivity]].
  - intros k r Hr. apply lookup_fmap_Some in Hr as (r0 & <- & _).
    destruct r0 as [i rt cap st cr ar ty am th].
    unfold upgrade_v3_offer. cbn -[JS.gt].
    destruct (JS.gt (to_number rt) 0) eqn:Hrate;
      destruct ty as [| | |[|]], am, th; cbn -[JS.gt];
      repeat split; eauto.
  - intros k. rewrite lookup_fmap. apply fmap_None.
Qed.

(** X25: the two upgrade callbacks commute on a record, and each leaves
    alone the properties the other one backfills, the key, the rate and
    the cap. *)
Theorem upgrades_commute r :
  upgrade_v3_offer (upgrade_v2_offer r) = upgrade_v2_offer (upgrade_v3_offer r) /\
  (so_id (upgrade_v2_offer r) = so_id r /\
   so_rate (upgrade_v2_offer r) = so_rate r /\
   so_cashbackCap (upgrade_v2_offer r) = so_cashbackCap r /\
   so_rewardType (upgrade_v2_offer r) = so_rewardType r /\
   so_rewardAmount (upgrade_v2_offer r) = so_rewardAmount r /\
   so_spendThreshold (upgrade_v2_offer r) = so_spendThreshold r) /\
  (so_id (upgrade_v3_offer r) = so_id r /\
   so_rate (upgrade_v3_offer r) = so_rate r /\
   so_cashbackCap (upgrade_v3_offer r) = so_cashbackCap r /\
   so_status (upgrade_v3_offer r) = so_status r /\
   so_creditedToLifetime (upgrade_v3_offer r) = so_creditedToLifetime r /\
   so_archivedAt (upgrade_v3_offer r) = so_archivedAt r).
Proof.
  destruct r as [i rt cap st cr ar ty am th].
  unfold upgrade_v3_offer, upgrade_v2_offer. cbn -[JS.gt].
  split; [|split; repeat split].
  all: destruct ty as [| | |[|]]; reflexivity.
Qed.

End MoreUpgrades.

(** ** Creating and editing an offer *)

Section Forms.

Implicit Types (o existing : Offer) (w : World) (key uuid : string)
  (data : ParsedOfferData).

Lemma normalizeOffer_io_run o w :
  exists s w',
    normalizeOffer_io o w = (Returned (with_status s o), w') /\
    tables w' = tables w /\
    indexedDB_defined w' = indexedDB_defined w /\
    (s = archived <-> status o = archived) /\
    (status o <> archived ->
     s = computeStatus (clock w (ticks w)) o /\ clock w' = clock w /\
     ticks w' = S (ticks w)).
Proof.
  unfold normalizeOffer_io, computeStatus_io, mbind, IO_bind.
  case_bool_decide as Ha.
  - exists archived, w. cbn. rewrite Ha.
    rewrite bool_decide_false by tauto. cbn.
    split; [rewrite <- Ha; destruct o; reflexivity|].
    repeat split; auto; tauto.
  - cbn. rewrite (bool_decide_true (status o <> archived)) by exact Ha.
    rewrite andb_true_r.
    exists (computeStatus (clock w (ticks w)) o). eexists. split.
    + case_bool_decide as Hd; [reflexivity|].
      rewrite Hd. destruct o; reflexivity.
    + cbn. split; [reflexivity|]. split; [reflexivity|].
      split; [apply computeStatus_archived|]. intros _. repeat split.
Qed.

Lemma handleEdit_run key data existing w :
  key <> "" ->
  offers (tables w) !! key = Some existing ->
  id existing = key ->
  exists o' w',
    handleEdit true (Some key) data w
      = (Returned (StatusMessage "Offer updated."), w') /\
    offers (tables w') = <[key := o']> (offers (tables w)) /\
    cards (tables w') = cards (tables w) /\
    spendLogs (tables w') = spendLogs (tables w) /\
    stats (tables w') = stats (tables w) /\
    indexedDB_defined w' = indexedDB_defined w /\
    id o' = key /\
    createdAt o' = createdAt existing /\
    archivedAt o' = archivedAt existing /\
    creditedToLifetime o' = Some (creditedToLifetime existing ?? false) /\
    (status o' = archived <-> status existing = archived) /\
    totalSpendTracked o' = pd_totalSpendTracked data /\
    cashbackEarned o' =
      cashbackEarned
        (recalcOfferProgress (edited_offer existing data (clock w (ticks w)))).
Proof.
  intros Hkey Hget Hid.
  unfold handleEdit. rewrite decide_False by exact Hkey.
  unfold try_catch, offers_get, offers_put, Date_now, mbind, IO_bind.
  cbn -[insert]. rewrite Hget. cbn -[insert].
  set (now := clock w (ticks w)).
  destruct (recalcOfferProgress_spread (edited_offer existing data now))
    as [c Hc].
  case_bool_decide as Ha.
  - cbn -[insert]. eexists _, _. split; [reflexivity|]. cbn -[insert].
    rewrite Hc. cbn -[insert]. rewrite Hid.
    repeat split; try reflexivity; try exact Hid; auto.
  - destruct (normalizeOffer_io_run
                (recalcOfferProgress (edited_offer existing data now))
                (mkWorld (indexedDB_defined w) (tables w) (clock w)
                   (S (ticks w))))
      as (s & w1 & -> & Ht & Hdb & Hs & _).
    cbn -[insert]. eexists _, _. split; [reflexivity|]. cbn -[insert].
    rewrite Ht, Hdb, Hc. cbn -[insert]. rewrite Hid.
    rewrite Hc in Hs. cbn in Hs.
    repeat split; try reflexivity; try exact Hid.
    + cbn. intros Hs'. apply Hs, Hs'.
    + intros Hs'. contradiction.
Qed.

(** X27: saving the edit form of a stored offer always succeeds and
    replaces that offer alone.  The stored record keeps its key, creation
    time, archive time and lifetime-credit flag (a missing flag is stored
    as [false]); it is archived exactly when the offer was; its tracked
    spend is the form's and its [cashbackEarned] is recomputed by
    [recalcOfferProgress], not taken from the form. *)
Theorem handleEdit_keeps_identity key data existing w :
  key <> "" ->
  offers (tables w) !! key = Some existing ->
  id existing = key ->
  exists o' w',
    handleEdit true (Some key) data w
      = (Returned (StatusMessage "Offer updated."), w') /\
    offers (tables w') = <[key := o']> (offers (tables w)) /\
    cards (tables w') = cards (tables w) /\
    spendLogs (tables w') = spendLogs (tables w) /\
    stats (tables w') = stats (tables w) /\
    id o' = key /\
    createdAt o' = createdAt existing /\
    archivedAt o' = archivedAt existing /\
    creditedToLifetime o' = Some (creditedToLifetime existing ?? false) /\
    (status o' = archived <-> status existing = archived) /\
    totalSpendTracked o' = pd_totalSpendTracked data /\
    cashbackEarned o' =
      cashbackEarned
        (recalcOfferProgress (edited_offer existing data (clock w (ticks w)))).
Proof.
  intros Hkey Hget Hid.
  destruct (handleEdit_run key data existing w Hkey Hget Hid)
    as (o' & w' & H1 & H2 & H3 & H4 & H5 & _ & H6).
  exists o', w'. repeat split; try assumption; apply H6.
Qed.

Lemma handleEdit_keeps_identity_witness :
  offers (tables (coffee_world None)) !! "o-4" = Some (coffee_offer None) /\
  exists o' w',
    handleEdit true (Some "o-4") coffee_form (coffee_world None)
      = (Returned (StatusMessage "Offer updated."), w') /\
    offers (tables w') = <[ "o-4" := o' ]> (offers (tables (coffee_world None))) /\
    creditedToLifetime o' = Some false.
Proof.
  split; [reflexivity|].
  destruct (handleEdit_keeps_identity "o-4" coffee_form (coffee_offer None)
              (coffee_world None) ltac:(discriminate) eq_refl eq_refl)
    as (o' & w' & Hrun & Ho & _ & _ & _ & _ & _ & _ & Hcr & _).
  exists o', w'. split; [exact Hrun|]. split; [exact Ho | exact Hcr].
Defined.

(** X28: when the offer being edited is no longer stored, [handleEdit]
    does not report success and writes nothing: an edit never creates an
    offer. *)
Theorem handleEdit_missing_offer key data w :
  offers (tables w) !! key = None ->
  exists message w',
    handleEdit true (Some key) data w = (Returned message, w') /\
    message <> StatusMessage "Offer updated." /\
    tables w' = tables w.
Proof.
  intros Hnone. unfold handleEdit.
  destruct (decide (key = "")); [exists NoMessage, w; repeat split; discriminate|].
  unfold try_catch, offers_get, Date_now, mbind, IO_bind.
  cbn. rewrite Hnone. cbn.
  eexists _, _. split; [reflexivity|]. split; [discriminate | reflexivity].
Qed.

Lemma handleEdit_missing_offer_witness :
  offers (tables (coffee_world None)) !! "o-5" = None /\
  exists message w',
    handleEdit true (Some "o-5") coffee_form (coffee_world None)
      = (Returned message, w') /\
    tables w' = tables (coffee_world None).
Proof.
  split; [reflexivity|].
  destruct (handleEdit_missing_offer "o-5" coffee_form (coffee_world None)
              eq_refl)
    as (message & w' & Hrun & _ & Ht).
  exists message, w'. split; [exact Hrun | exact Ht].
Defined.




(** X30: [handleCreate] with a fresh id stores exactly one new offer, the
    normalized [recalcOfferProgress] of the form data, which is never
    archived, is not yet credited to the lifetime total and has no archive
    time; with an id already in use nothing is stored and the failure
    message is shown. *)
Theorem handleCreate_stores_normalized data uuid w :
  (offers (tables w) !! uuid = None ->
   exists o' w',
     handleCreate true data uuid w
       = (Returned (StatusMessage "Offer saved."), w') /\
     offers (tables w') = <[uuid := o']> (offers (tables w)) /\
     cards (tables w') = cards (tables w) /\
     spendLogs (tables w') = spendLogs (tables w) /\
     stats (tables w') = stats (tables w) /\
     o' = normalizeOffer (clock w (S (ticks w)))
            (recalcOfferProgress (new_offer uuid data (clock w (ticks w)))) /\
     id o' = uuid /\
     status o' <> archived /\
     creditedToLifetime o' = Some false /\
     archivedAt o' = None) /\
  (offers (tables w) !! uuid <> None ->
   exists w',
     handleCreate true data uuid w
       = (Returned
            (ErrorMessage "Unable to save the offer. Please try again."),
          w') /\
     tables w' = tables w).
Proof.
  unfold handleCreate, try_catch, offers_add, Date_now, mbind, IO_bind.
  cbn -[insert].
  set (now := clock w (ticks w)).
  set (draft := recalcOfferProgress (new_offer uuid data now)).
  assert (Hdraft : exists c, draft = with_cashbackEarned c (new_offer uuid data now))
    by apply recalcOfferProgress_spread.
  destruct Hdraft as [c Hc].
  assert (Hact : status draft <> archived) by (rewrite Hc; discriminate).
  destruct (normalizeOffer_io_run draft
              (mkWorld (indexedDB_defined w) (tables w) (clock w) (S (ticks w))))
    as (s & w1 & Hrun & Ht & _ & Hs & Hnow).
  destruct (Hnow Hact) as (Hs' & _). cbn in Hs'.
  rewrite Hrun. cbn -[insert]. rewrite Ht. cbn -[insert].
  assert (Hidn : id draft = uuid) by (rewrite Hc; reflexivity).
  rewrite Hidn.
  split.
  - intros Hnone. rewrite Hnone. cbn -[insert].
    eexists _, _. split; [reflexivity|]. cbn -[insert].
    split; [reflexivity|]. split; [reflexivity|]. split; [reflexivity|].
    split; [reflexivity|].
    split.
    { rewrite Hs'. symmetry.
      apply (proj1 (normalizeOffer_frame (clock w (S (ticks w))) draft)). }
    split; [exact Hidn|].
    split; [cbn; intros Ha; apply Hact, Hs, Ha|].
    clear Hidn.
    rewrite Hc. split; reflexivity.
  - intros Hsome.
    destruct (offers (tables w) !! uuid) as [x|]; [|congruence].
    cbn. eexists. split; [reflexivity|]. exact Ht.
Qed.

End Forms.
